(** * Patch-outcome classification of [InControlPlaneOverride]

    A shallow embedding of
    [apis/spaces/v1alpha1/incontrolplaneoverride_types.go]: the
    [ObjectReference] outcome record, its [String] and [NotFound]
    methods, the constructors [PatchSuccess] and [PatchFailure], and
    the conditions [Deleted] and [Traversed], together with the parts
    of the Go libraries they call ([regexp], [errors], apimachinery's
    [metav1] and [kerrors], [unstructured], [ptr], [strings]), and
    [encoding/json] as the [json] tags of the status types direct it. *)

From Stdlib Require Import String Ascii List Bool ZArith Lia.
Import ListNotations.
Open Scope string_scope.

(** ** Run-time panics

    A Go call either returns or panics (nil dereference, method call on
    a nil interface).  [None] is the panic. *)
Module Panic.

Definition M (A : Type) : Type := option A.

Definition ret {A} (a : A) : M A := Some a.

Definition bind {A B} (m : M A) (k : A -> M B) : M B :=
  match m with
  | Some a => k a
  | None => None
  end.

(** [*p]: dereferencing a nil pointer panics. *)
Definition deref {A} (p : option A) : M A := p.

End Panic.

Notation "x <- m ;; k" := (Panic.bind m (fun x => k))
  (at level 61, m at next level, right associativity).

(** ** Package [ptr] (k8s.io/utils/ptr) *)
Module ptr.

(** [ptr.To(v)]: a pointer to [v]. *)
Definition To {A} (v : A) : option A := Some v.

(** [ptr.Deref(p, def)]: [*p], or [def] when [p] is nil. *)
Definition Deref {A} (p : option A) (def : A) : A :=
  match p with
  | Some v => v
  | None => def
  end.

End ptr.

(** ** Package [strings] *)
Module strings.

(** [strings.Join(elems, sep)]. *)
Fixpoint Join (elems : list string) (sep : string) : string :=
  match elems with
  | [] => ""
  | [e] => e
  | e :: rest => e ++ sep ++ Join rest sep
  end.

End strings.

(** ** Package [regexp]

    Strings are sequences of bytes.  The syntax tree follows
    [regexp/syntax]: the operators the pattern of this file needs, and
    matching by derivatives. *)
Module regexp.

Definition newline : ascii := "010"%char.

Inductive Regexp : Type :=
| NoMatch
| EmptyMatch
| Literal (l : list ascii)
| AnyCharNotNL
| AnyChar
| Concat (r1 r2 : Regexp)
| Alternate (r1 r2 : Regexp)
| Star (r : Regexp)
| Plus (r : Regexp).


(** *** Parsing: literals, [.], and the postfix [*] and [+].
    Every other metacharacter is outside the fragment. *)
Definition isMeta (c : ascii) : bool :=
  existsb (Ascii.eqb c)
          ["\"; "["; "]"; "("; ")"; "{"; "}"; "|"; "?"; "^"; "$"]%char.

Definition isRepeat (r : Regexp) : bool :=
  match r with
  | Star _ | Plus _ => true
  | _ => false
  end.

(** [acc] holds the pieces read so far, last one first. *)
Fixpoint parse (pat : list ascii) (acc : list Regexp)
  : option (list Regexp) :=
  match pat with
  | [] => Some (rev acc)
  | c :: rest =>
      if Ascii.eqb c "." then parse rest (AnyCharNotNL :: acc)
      else if Ascii.eqb c "+" then
        match acc with
        | a :: acc' =>
            if isRepeat a then None else parse rest (Plus a :: acc')
        | [] => None
        end
      else if Ascii.eqb c "*" then
        match acc with
        | a :: acc' =>
            if isRepeat a then None else parse rest (Star a :: acc')
        | [] => None
        end
      else if isMeta c then None
      else parse rest (Literal [c] :: acc)
  end.

(** Concatenation of the pieces, runs of literals merged. *)
Fixpoint concat (pieces : list Regexp) : Regexp :=
  match pieces with
  | [] => EmptyMatch
  | p :: rest =>
      match rest with
      | [] => p
      | _ :: _ =>
          match p, concat rest with
          | Literal l1, Literal l2 => Literal (l1 ++ l2)
          | Literal l1, Concat (Literal l2) r =>
              Concat (Literal (l1 ++ l2)) r
          | _, r => Concat p r
          end
      end
  end.

Definition Compile (pattern : string) : option Regexp :=
  option_map concat (parse (list_ascii_of_string pattern) []).

(** [regexp.MustCompile]: panics when the pattern does not parse. *)
Definition MustCompile (pattern : string) : Panic.M Regexp :=
  Compile pattern.

(** *** Matching *)
Fixpoint nullable (r : Regexp) : bool :=
  match r with
  | NoMatch => false
  | EmptyMatch => true
  | Literal l => match l with [] => true | _ :: _ => false end
  | AnyCharNotNL => false
  | AnyChar => false
  | Concat r1 r2 => nullable r1 && nullable r2
  | Alternate r1 r2 => nullable r1 || nullable r2
  | Star _ => true
  | Plus r' => nullable r'
  end.

Fixpoint deriv (a : ascii) (r : Regexp) : Regexp :=
  match r with
  | NoMatch => NoMatch
  | EmptyMatch => NoMatch
  | Literal l =>
      match l with
      | [] => NoMatch
      | c :: l' => if Ascii.eqb a c then Literal l' else NoMatch
      end
  | AnyCharNotNL => if Ascii.eqb a newline then NoMatch else EmptyMatch
  | AnyChar => EmptyMatch
  | Concat r1 r2 =>
      if nullable r1
      then Alternate (Concat (deriv a r1) r2) (deriv a r2)
      else Concat (deriv a r1) r2
  | Alternate r1 r2 => Alternate (deriv a r1) (deriv a r2)
  | Star r' => Concat (deriv a r') (Star r')
  | Plus r' => Concat (deriv a r') (Star r')
  end.

(** The whole of [s] matches [r]. *)
Fixpoint fullMatch (r : Regexp) (s : list ascii) : bool :=
  match s with
  | [] => nullable r
  | a :: s' => fullMatch (deriv a r) s'
  end.

(** [re.MatchString(s)]: some substring of [s] matches [re]. *)
Definition MatchString (re : Regexp) (s : string) : bool :=
  fullMatch (Concat (Star AnyChar) (Concat re (Star AnyChar)))
            (list_ascii_of_string s).

End regexp.

(** ** JSON-like values ([interface{}] trees of [unstructured] and of
    [encoding/json]); numbers are integers here. *)
Module json.

#[local] Set Warnings "-register-all".

Inductive Value : Type :=
| Null
| Bool (b : bool)
| Number (z : Z)
| Str (s : string)
| Array (l : list Value)
| Object (m : list (string * Value)).

(** [m[key]] on a [map[string]interface{}]. *)
Fixpoint lookup (key : string) (m : list (string * Value))
  : option Value :=
  match m with
  | [] => None
  | (k, v) :: m' => if String.eqb k key then Some v else lookup key m'
  end.

End json.

(** ** Package [unstructured] (apimachinery) *)
Module unstructured.

Record Unstructured : Type := { Object : list (string * json.Value) }.

(** [NestedFieldNoCopy]: [None] when a field is absent or when the
    path runs into something that is not a map. *)
Fixpoint NestedFieldNoCopy (val : json.Value) (fields : list string)
  : option json.Value :=
  match fields with
  | [] => Some val
  | field :: fields' =>
      match val with
      | json.Object m =>
          match json.lookup field m with
          | Some v => NestedFieldNoCopy v fields'
          | None => None
          end
      | _ => None
      end
  end.

(** [getNestedString]: the empty string unless the path leads to a
    string. *)
Definition getNestedString (obj : list (string * json.Value))
           (fields : list string) : string :=
  match NestedFieldNoCopy (json.Object obj) fields with
  | Some (json.Str s) => s
  | _ => ""
  end.

(** The getters take a pointer receiver and read [u.Object]. *)
Definition GetAPIVersion (u : option Unstructured) : Panic.M string :=
  u' <- Panic.deref u ;;
  Panic.ret (getNestedString (Object u') ["apiVersion"]).

Definition GetKind (u : option Unstructured) : Panic.M string :=
  u' <- Panic.deref u ;;
  Panic.ret (getNestedString (Object u') ["kind"]).

Definition GetName (u : option Unstructured) : Panic.M string :=
  u' <- Panic.deref u ;;
  Panic.ret (getNestedString (Object u') ["metadata"; "name"]).

Definition GetNamespace (u : option Unstructured) : Panic.M string :=
  u' <- Panic.deref u ;;
  Panic.ret (getNestedString (Object u') ["metadata"; "namespace"]).

Definition GetUID (u : option Unstructured) : Panic.M string :=
  u' <- Panic.deref u ;;
  Panic.ret (getNestedString (Object u') ["metadata"; "uid"]).

End unstructured.

(** ** Package [metav1] (apimachinery) *)
Module metav1.

Definition StatusReason : Type := string.
Definition StatusReasonUnknown : StatusReason := "".
Definition StatusReasonNotFound : StatusReason := "NotFound".
Definition StatusReasonInternalError : StatusReason := "InternalError".

Definition CauseType : Type := string.
Definition CauseTypeFieldManagerConflict : CauseType :=
  "FieldManagerConflict".

Record StatusCause : Type := {
  Type_ : CauseType;
  CauseMessage : string;
  Field : string
}.

Record StatusDetails : Type := {
  Name : string;
  Group : string;
  Kind : string;
  UID : string;
  Causes : list StatusCause;
  RetryAfterSeconds : Z
}.

Record Status : Type := {
  Status' : string;
  Message : string;
  Reason : StatusReason;
  Details : option StatusDetails;
  Code : Z
}.

(** [metav1.Time]: the instant, in nanoseconds. *)
Definition Time : Type := Z.

End metav1.

(** ** Errors: package [errors] and apimachinery's [kerrors]

    An error value is a chain: a [*kerrors.StatusError], a plain error,
    or an error that wraps another one and carries its own text.  The
    interface itself may be nil ([option error]); the members of a
    chain are not. *)
Module kerrors.

Inductive error : Type :=
| StatusError (ErrStatus : metav1.Status)
| errorString (s : string)
| wrapError (msg : string) (err : error).

(** The text of an error; a [StatusError] answers with its status
    message. *)
Definition errorText (e : error) : string :=
  match e with
  | StatusError s => metav1.Message s
  | errorString s => s
  | wrapError msg _ => msg
  end.

(** [err.Error()]: calling the method on the nil interface panics. *)
Definition Error (err : option error) : Panic.M string :=
  e <- Panic.deref err ;;
  Panic.ret (errorText e).

(** [errors.As(err, &sErr)] with [sErr] a [*StatusError]: the first
    [StatusError] along the chain; false on nil. *)
Fixpoint AsStatusError (e : error) : option metav1.Status :=
  match e with
  | StatusError s => Some s
  | errorString _ => None
  | wrapError _ e' => AsStatusError e'
  end.

Definition As (err : option error) : option metav1.Status :=
  match err with
  | Some e => AsStatusError e
  | None => None
  end.

(** [ReasonForError]: the reason of the first [APIStatus] along the
    chain, which is a [StatusError]. *)
Definition ReasonForError (err : option error) : metav1.StatusReason :=
  match As err with
  | Some status => metav1.Reason status
  | None => metav1.StatusReasonUnknown
  end.

Definition IsInternalError (err : option error) : bool :=
  String.eqb (ReasonForError err) metav1.StatusReasonInternalError.

End kerrors.

(** ** Package [corev1] and crossplane-runtime's [xpv1] *)
Module corev1.

Record TypedObjectReference : Type := {
  APIGroup : option string;
  Kind : string;
  Name : string;
  Namespace : option string
}.

Definition ConditionStatus : Type := string.
Definition ConditionTrue : ConditionStatus := "True".
Definition ConditionFalse : ConditionStatus := "False".
Definition ConditionUnknown : ConditionStatus := "Unknown".

End corev1.

Module xpv1.

Definition ConditionType : Type := string.
Definition TypeReady : ConditionType := "Ready".

Record Condition : Type := {
  Type_ : ConditionType;
  Status : corev1.ConditionStatus;
  LastTransitionTime : metav1.Time;
  Reason : string;
  Message : string;
  ObservedGeneration : Z
}.

(** [Condition.Equal]: identical but for the last transition time. *)
Definition Equal (c other : Condition) : bool :=
  String.eqb (Type_ c) (Type_ other)
  && String.eqb (Status c) (Status other)
  && String.eqb (Reason c) (Reason other)
  && String.eqb (Message c) (Message other)
  && Z.eqb (ObservedGeneration c) (ObservedGeneration other).

Record ConditionedStatus : Type := { Conditions : list Condition }.

Record ResourceStatus : Type := {
  ConditionedStatus_ : ConditionedStatus;
  StatusObservedGeneration : Z
}.

(** [Time{}], the instant the others are counted from. *)
Definition zeroTime : metav1.Time := 0%Z.

(** The loop of [GetCondition]: the first condition of the type. *)
Fixpoint findCondition (conditions : list Condition) (ct : ConditionType)
  : option Condition :=
  match conditions with
  | [] => None
  | c :: rest =>
      if String.eqb (Type_ c) ct then Some c else findCondition rest ct
  end.

(** [GetCondition]: the condition of the given type, or one of that
    type with status [Unknown]. *)
Definition GetCondition (s : ConditionedStatus) (ct : ConditionType)
  : Condition :=
  match findCondition (Conditions s) ct with
  | Some c => c
  | None =>
      {| Type_ := ct; Status := corev1.ConditionUnknown;
         LastTransitionTime := zeroTime; Reason := ""; Message := "";
         ObservedGeneration := 0 |}
  end.

(** The inner loop of [SetConditions] for one condition [new]: each
    existing condition of its type stays when it is [Equal] to [new]
    and is overwritten in place by [new] otherwise; [found] is the
    flag [exists] of the source. *)
Fixpoint rangeConditions (existing : list Condition) (new : Condition)
         (found : bool) : list Condition * bool :=
  match existing with
  | [] => ([], found)
  | e :: rest =>
      if negb (String.eqb (Type_ e) (Type_ new)) then
        let '(l, b) := rangeConditions rest new found in (e :: l, b)
      else if Equal e new then
        let '(l, b) := rangeConditions rest new true in (e :: l, b)
      else
        let '(l, b) := rangeConditions rest new true in (new :: l, b)
  end.

(** One round of the outer loop: [new] is appended when no condition
    of its type was there. *)
Definition setCondition (conditions : list Condition) (new : Condition)
  : list Condition :=
  let '(l, found) := rangeConditions conditions new false in
  if found then l else l ++ [new].

(** [SetConditions]: the supplied conditions, one after the other. *)
Definition SetConditions (s : ConditionedStatus) (c : list Condition)
  : ConditionedStatus :=
  {| Conditions := fold_left setCondition c (Conditions s) |}.

Record SecretReference : Type := {
  Name : string;
  Namespace : string
}.

Definition ManagementPolicies : Type := list string.
Definition DeletionPolicy : Type := string.

End xpv1.

(** ** Package [v1alpha1] *)
Module v1alpha1.

(** The package variable is set by [regexp.MustCompile] when the
    package is loaded; the pattern compiles
    ([regexFieldNotDeclared_compiles] below). *)
Definition regexFieldNotDeclared : regexp.Regexp :=
  match regexp.MustCompile
          "failed to create typed patch object.+field not declared in schema"
  with
  | Some re => re
  | None => regexp.NoMatch
  end.

Definition PatchState : Type := string.
Definition PatchStateSuccess : PatchState := "Success".
Definition PatchStateSkipped : PatchState := "Skipped".
Definition PatchStateError : PatchState := "Error".

Definition PatchStateReason : Type := string.
Definition PatchStateReasonConflict : PatchStateReason := "Conflict".
Definition PatchStateReasonSchemaMismatch : PatchStateReason :=
  "SchemaMismatch".

Record ObjectReference : Type := {
  TypedObjectReference : corev1.TypedObjectReference;
  UID : option string;
  Status : PatchState;
  Reason : option PatchStateReason;
  Message : option string
}.

Section Methods.

(** The [String] method of the embedded [corev1.TypedObjectReference]
    is generated code of another module. *)
Variable TypedObjectReference_String :
  corev1.TypedObjectReference -> string.

(** [String] returns a string representation of the reference; the
    receiver is a pointer and is tested against nil first. *)
Definition String (r : option ObjectReference) : Panic.M string :=
  match r with
  | None => Panic.ret "nil"
  | Some _ =>
      r' <- Panic.deref r ;;
      Panic.ret
        (strings.Join
           [TypedObjectReference_String (TypedObjectReference r'); ", ";
            "UID: '"; ptr.Deref (UID r') ""; "', ";
            "Status: "; Status r'; ", ";
            "Reason: '"; ptr.Deref (Reason r') ""; "', ";
            "Message: '"; ptr.Deref (Message r') ""; "'"] "")
  end.

End Methods.

(** [NotFound]: the patch failed because the target object was not
    found.  The receiver is read without a nil test. *)
Definition NotFound (r : option ObjectReference) : Panic.M bool :=
  r' <- Panic.deref r ;;
  Panic.ret (String.eqb (Status r') PatchStateError
             && String.eqb (ptr.Deref (Reason r') "")
                           metav1.StatusReasonNotFound).

(** [PatchSuccess]: the record of an object the patch was applied to. *)
Definition PatchSuccess (u : option unstructured.Unstructured)
  : Panic.M ObjectReference :=
  apiVersion <- unstructured.GetAPIVersion u ;;
  kind <- unstructured.GetKind u ;;
  name <- unstructured.GetName u ;;
  namespace <- unstructured.GetNamespace u ;;
  uid <- unstructured.GetUID u ;;
  Panic.ret {| TypedObjectReference :=
                 {| corev1.APIGroup := ptr.To apiVersion;
                    corev1.Kind := kind;
                    corev1.Name := name;
                    corev1.Namespace := ptr.To namespace |};
               UID := ptr.To uid;
               Status := PatchStateSuccess;
               Reason := None;
               Message := None |}.

(** The loop over [Details.Causes]: the first cause of type
    [FieldManagerConflict] sets the state and the reason and breaks. *)
Fixpoint rangeCauses (causes : list metav1.StatusCause)
         (acc : PatchState * option PatchStateReason)
  : PatchState * option PatchStateReason :=
  match causes with
  | [] => acc
  | c :: rest =>
      if String.eqb (metav1.Type_ c) metav1.CauseTypeFieldManagerConflict
      then (PatchStateSkipped, ptr.To PatchStateReasonConflict)
      else rangeCauses rest acc
  end.

(** [PatchFailure]: the record of an object the patch failed on, with
    the state and the reason read off the error. *)
Definition PatchFailure (t : corev1.TypedObjectReference)
           (uid : option string) (err : option kerrors.error)
  : Panic.M ObjectReference :=
  let reason : option PatchStateReason := None in
  let ps := PatchStateError in
  let '(ps, reason) :=
    match kerrors.As err with
    | Some sErr =>
        let reason := ptr.To (metav1.Reason sErr) in
        if kerrors.IsInternalError err
           && regexp.MatchString regexFieldNotDeclared (metav1.Message sErr)
        then (PatchStateSkipped, ptr.To PatchStateReasonSchemaMismatch)
        else
          match metav1.Details sErr with
          | Some details =>
              rangeCauses (metav1.Causes details) (ps, reason)
          | None => (ps, reason)
          end
    | None => (ps, reason)
    end in
  text <- kerrors.Error err ;;
  Panic.ret {| TypedObjectReference := t;
               UID := uid;
               Status := ps;
               Reason := reason;
               Message := ptr.To text |}.

(** [metav1.Now()] reads the clock: the reading is the argument. *)
Definition Deleted (now : metav1.Time) : xpv1.Condition :=
  {| xpv1.Type_ := xpv1.TypeReady;
     xpv1.Status := corev1.ConditionFalse;
     xpv1.LastTransitionTime := now;
     xpv1.Reason := "Deleted";
     xpv1.Message := "";
     xpv1.ObservedGeneration := 0 |}.

Definition Traversed (now : metav1.Time) : xpv1.Condition :=
  {| xpv1.Type_ := xpv1.TypeReady;
     xpv1.Status := corev1.ConditionTrue;
     xpv1.LastTransitionTime := now;
     xpv1.Reason := "Traversed";
     xpv1.Message := "";
     xpv1.ObservedGeneration := 0 |}.

End v1alpha1.

(** ** Package [unicode/utf8] *)
Module utf8.

Definition inRange (lo hi : N) (c : ascii) : bool :=
  (lo <=? N_of_ascii c)%N && (N_of_ascii c <=? hi)%N.

(** [n] continuation bytes [0x80..0xBF] at the head of [s]. *)
Fixpoint continuation (n : nat) (s : string) : bool :=
  match n with
  | O => true
  | S n' =>
      match s with
      | String c s' => inRange 128 191 c && continuation n' s'
      | EmptyString => false
      end
  end.

(** The second byte within [lo..hi], then [n] continuation bytes. *)
Definition accept (lo hi : N) (n : nat) (s : string) : option nat :=
  match s with
  | String c s' =>
      if inRange lo hi c && continuation n s' then Some (S n) else None
  | EmptyString => None
  end.

(** The encoding that starts with byte [b0] and goes on in [rest]:
    how many bytes follow [b0] in it, or [None] when [b0] starts no
    valid encoding (the case in which [DecodeRuneInString] answers
    [RuneError] with width 1). *)
Definition decodeRune (b0 : ascii) (rest : string) : option nat :=
  let x := N_of_ascii b0 in
  if (x <? 128)%N then Some O
  else if (x <? 194)%N then None
  else if (x <=? 223)%N then accept 128 191 0 rest
  else if (x =? 224)%N then accept 160 191 1 rest
  else if (x <=? 236)%N then accept 128 191 1 rest
  else if (x =? 237)%N then accept 128 159 1 rest
  else if (x <=? 239)%N then accept 128 191 1 rest
  else if (x =? 240)%N then accept 144 191 2 rest
  else if (x <=? 243)%N then accept 128 191 2 rest
  else if (x =? 244)%N then accept 128 143 2 rest
  else None.

(** U+FFFD, the replacement character, in UTF-8. *)
Definition RuneError : string :=
  String (ascii_of_N 239) (String (ascii_of_N 191)
         (String (ascii_of_N 189) EmptyString)).

(** [k] bytes of the current encoding are still to be passed. *)
Fixpoint valid (k : nat) (s : string) : bool :=
  match s with
  | EmptyString => true
  | String b rest =>
      match k with
      | S k' => valid k' rest
      | O =>
          match decodeRune b rest with
          | Some w => valid w rest
          | None => false
          end
      end
  end.

Definition ValidString (s : string) : bool := valid 0 s.

Fixpoint coerce (k : nat) (s : string) : string :=
  match s with
  | EmptyString => EmptyString
  | String b rest =>
      match k with
      | S k' => String b (coerce k' rest)
      | O =>
          match decodeRune b rest with
          | Some w => String b (coerce w rest)
          | None => RuneError ++ coerce 0 rest
          end
      end
  end.

(** Every byte that starts no valid encoding becomes U+FFFD. *)
Definition ToValidUTF8 (s : string) : string := coerce 0 s.

End utf8.

(** ** Package [encoding/json], on values

    [Marshal] and [Unmarshal] of the struct types below follow their
    [json] tags.  The text of a document (quoting, escapes, white
    space) is not modelled: a document is its [json.Value].  Member
    names are matched exactly, unknown members are skipped, a later
    member overrides an earlier one, and a value of the wrong kind is
    an error. *)
Module encoding.

(** A Go string becomes a JSON string coerced to valid UTF-8. *)
Definition marshalString (s : string) : json.Value :=
  json.Str (utf8.ToValidUTF8 s).

(** A pointer: [null] when nil. *)
Definition marshalStringPtr (p : option string) : json.Value :=
  match p with
  | Some s => marshalString s
  | None => json.Null
  end.

(** A member tagged [omitempty] whose type is a pointer is left out
    when the pointer is nil. *)
Definition omitemptyStringPtr (name : string) (p : option string)
  : list (string * json.Value) :=
  match p with
  | Some s => [(name, marshalString s)]
  | None => []
  end.

(** Into a [string]: [null] leaves the field as it is. *)
Definition unmarshalString (v : json.Value) (old : string)
  : option string :=
  match v with
  | json.Str s => Some s
  | json.Null => Some old
  | _ => None
  end.

(** Into a [*string]: [null] sets the pointer to nil. *)
Definition unmarshalStringPtr (v : json.Value) : option (option string) :=
  match v with
  | json.Str s => Some (Some s)
  | json.Null => Some None
  | _ => None
  end.

(** The members of an object, in order, each applied to the value
    decoded so far. *)
Definition unmarshalMembers {A} (member : A -> string -> json.Value -> option A)
           (m : list (string * json.Value)) (zero : A) : option A :=
  fold_left (fun acc kv => a <- acc ;; member a (fst kv) (snd kv))
            m (Some zero).


End encoding.

(** ** The status types of [v1alpha1] under [encoding/json] *)
Module v1alpha1_json.

Import v1alpha1.

(** [corev1.TypedObjectReference]: [apiGroup], [kind], [name] and
    [namespace,omitempty]. *)
Definition marshalTypedObjectReference (t : corev1.TypedObjectReference)
  : list (string * json.Value) :=
  [("apiGroup", encoding.marshalStringPtr (corev1.APIGroup t));
   ("kind", encoding.marshalString (corev1.Kind t));
   ("name", encoding.marshalString (corev1.Name t))]
    ++ encoding.omitemptyStringPtr "namespace" (corev1.Namespace t).

(** [ObjectReference]: the embedded reference inline, then
    [uid,omitempty], [status], [reason,omitempty],
    [message,omitempty]. *)
Definition marshalObjectReference (r : ObjectReference) : json.Value :=
  json.Object
    (marshalTypedObjectReference (TypedObjectReference r)
       ++ encoding.omitemptyStringPtr "uid" (UID r)
       ++ [("status", encoding.marshalString (Status r))]
       ++ encoding.omitemptyStringPtr "reason" (Reason r)
       ++ encoding.omitemptyStringPtr "message" (Message r)).

Definition zeroTypedObjectReference : corev1.TypedObjectReference :=
  {| corev1.APIGroup := None; corev1.Kind := ""; corev1.Name := "";
     corev1.Namespace := None |}.

Definition zeroObjectReference : ObjectReference :=
  {| TypedObjectReference := zeroTypedObjectReference;
     UID := None; Status := ""; Reason := None; Message := None |}.

Definition withTypedObjectReference (r : ObjectReference)
           (t : corev1.TypedObjectReference) : ObjectReference :=
  {| TypedObjectReference := t; UID := UID r; Status := Status r;
     Reason := Reason r; Message := Message r |}.

Definition unmarshalObjectReferenceMember (r : ObjectReference)
           (name : string) (v : json.Value) : option ObjectReference :=
  let t := TypedObjectReference r in
  if String.eqb name "apiGroup" then
    p <- encoding.unmarshalStringPtr v ;;
    Some (withTypedObjectReference r
            {| corev1.APIGroup := p; corev1.Kind := corev1.Kind t;
               corev1.Name := corev1.Name t;
               corev1.Namespace := corev1.Namespace t |})
  else if String.eqb name "kind" then
    s <- encoding.unmarshalString v (corev1.Kind t) ;;
    Some (withTypedObjectReference r
            {| corev1.APIGroup := corev1.APIGroup t; corev1.Kind := s;
               corev1.Name := corev1.Name t;
               corev1.Namespace := corev1.Namespace t |})
  else if String.eqb name "name" then
    s <- encoding.unmarshalString v (corev1.Name t) ;;
    Some (withTypedObjectReference r
            {| corev1.APIGroup := corev1.APIGroup t;
               corev1.Kind := corev1.Kind t; corev1.Name := s;
               corev1.Namespace := corev1.Namespace t |})
  else if String.eqb name "namespace" then
    p <- encoding.unmarshalStringPtr v ;;
    Some (withTypedObjectReference r
            {| corev1.APIGroup := corev1.APIGroup t;
               corev1.Kind := corev1.Kind t; corev1.Name := corev1.Name t;
               corev1.Namespace := p |})
  else if String.eqb name "uid" then
    p <- encoding.unmarshalStringPtr v ;;
    Some {| TypedObjectReference := t; UID := p; Status := Status r;
            Reason := Reason r; Message := Message r |}
  else if String.eqb name "status" then
    s <- encoding.unmarshalString v (Status r) ;;
    Some {| TypedObjectReference := t; UID := UID r; Status := s;
            Reason := Reason r; Message := Message r |}
  else if String.eqb name "reason" then
    p <- encoding.unmarshalStringPtr v ;;
    Some {| TypedObjectReference := t; UID := UID r; Status := Status r;
            Reason := p; Message := Message r |}
  else if String.eqb name "message" then
    p <- encoding.unmarshalStringPtr v ;;
    Some {| TypedObjectReference := t; UID := UID r; Status := Status r;
            Reason := Reason r; Message := p |}
  else Some r.

Definition unmarshalObjectReference (v : json.Value)
  : option ObjectReference :=
  match v with
  | json.Object m =>
      encoding.unmarshalMembers unmarshalObjectReferenceMember m
                                zeroObjectReference
  | json.Null => Some zeroObjectReference
  | _ => None
  end.

(** All strings of a record are valid UTF-8. *)
Definition validPtr (p : option string) : bool :=
  match p with
  | Some s => utf8.ValidString s
  | None => true
  end.

Definition validObjectReference (r : ObjectReference) : bool :=
  let t := TypedObjectReference r in
  validPtr (corev1.APIGroup t) && utf8.ValidString (corev1.Kind t)
  && utf8.ValidString (corev1.Name t) && validPtr (corev1.Namespace t)
  && validPtr (UID r) && utf8.ValidString (Status r)
  && validPtr (Reason r) && validPtr (Message r).

Section Status.

(** [xpv1.ResourceStatus] belongs to crossplane-runtime: its type,
    its zero value, the members it contributes to the enclosing
    object and the way it takes one member back are parameters. *)
Variable ResourceStatus : Type.
Variable zeroResourceStatus : ResourceStatus.
Variable marshalResourceStatus :
  ResourceStatus -> list (string * json.Value).
Variable unmarshalResourceStatusMember :
  ResourceStatus -> string -> json.Value -> option ResourceStatus.

(** A slice is the list of its elements: a nil and an empty slice are
    the same value. *)
Record InControlPlaneOverrideStatus : Type := {
  ResourceStatus_ : ResourceStatus;
  ObjectRefs : list ObjectReference
}.





End Status.

Arguments ResourceStatus_ {ResourceStatus} _.
Arguments ObjectRefs {ResourceStatus} _.

(** An instance of the parameters: crossplane-runtime's
    [ObservedStatus], a single [observedGeneration,omitempty]. *)
Module ObservedStatus.

Definition t : Type := Z.

Definition zero : t := 0%Z.



End ObservedStatus.

End v1alpha1_json.

(** ** Package [v1beta1] *)
Module v1beta1.

(** *** [conditions.go] *)
Definition ConditionTypeHealthy : xpv1.ConditionType := "Healthy".
Definition ReasonHealthy : string := "HealthyControlPlane".
Definition ReasonUnhealthy : string := "UnhealthyControlPlane".
Definition ConditionTypeControlPlaneProvisioned : xpv1.ConditionType :=
  "ControlPlaneProvisioned".
Definition ReasonProvisioned : string := "Provisioned".
Definition ReasonProvisioningError : string := "ProvisioningError".
Definition ConditionTypeSourceSynced : xpv1.ConditionType := "SourceSynced".
Definition ReasonSourceCompleted : string := "Completed".
Definition ReasonSourceInProgress : string := "InProgress".
Definition ConditionTypeSupported : xpv1.ConditionType := "Supported".
Definition ReasonSupported : string := "SupportedCrossplaneVersion".
Definition ReasonUnsupported : string := "UnsupportedCrossplaneVersion".
Definition ConditionTypeRestored : xpv1.ConditionType := "Restored".
Definition ReasonRestoreCompleted : string := "Completed".
Definition ReasonRestoreFailed : string := "Failed".
Definition ReasonRestorePending : string := "RestorePending".
Definition ConditionTypePaused : xpv1.ConditionType := "Paused".
Definition ReasonPauseInProgress : string := "InProgress".
Definition ReasonPauseCompleted : string := "Completed".
Definition ReasonPauseRestartInProgress : string := "RestartInProgress".
Definition ReasonPauseRestarted : string := "Restarted".

(** A condition literal of the source: the fields it does not name are
    zero.  [metav1.Now()] is the argument [now]. *)
Definition condition (type : xpv1.ConditionType)
           (status : corev1.ConditionStatus) (now : metav1.Time)
           (reason message : string) : xpv1.Condition :=
  {| xpv1.Type_ := type;
     xpv1.Status := status;
     xpv1.LastTransitionTime := now;
     xpv1.Reason := reason;
     xpv1.Message := message;
     xpv1.ObservedGeneration := 0 |}.

Definition Healthy (now : metav1.Time) : xpv1.Condition :=
  condition ConditionTypeHealthy corev1.ConditionTrue now ReasonHealthy "".

Definition Unhealthy (now : metav1.Time) : xpv1.Condition :=
  condition ConditionTypeHealthy corev1.ConditionFalse now ReasonUnhealthy "".

Definition ControlPlaneProvisioned (now : metav1.Time) : xpv1.Condition :=
  condition ConditionTypeControlPlaneProvisioned corev1.ConditionTrue now
            ReasonProvisioned "".

Definition ControlPlaneProvisionInProgress (now : metav1.Time)
  : xpv1.Condition :=
  condition ConditionTypeControlPlaneProvisioned corev1.ConditionFalse now
            ReasonProvisioned "".

Definition ControlPlaneProvisioningError (now : metav1.Time)
           (err : option kerrors.error) : Panic.M xpv1.Condition :=
  text <- kerrors.Error err ;;
  Panic.ret (condition ConditionTypeControlPlaneProvisioned
                       corev1.ConditionFalse now
                       ReasonProvisioningError text).

(** [fmt.Sprintf] with a single [%s] verb at the end of the format. *)
Definition SourceSynced (now : metav1.Time) (revision : string)
  : xpv1.Condition :=
  condition ConditionTypeSourceSynced corev1.ConditionTrue now
            ReasonSourceCompleted
            ("In sync with the revision " ++ revision).

Definition SourceInProgress (now : metav1.Time) (revision : string)
  : xpv1.Condition :=
  condition ConditionTypeSourceSynced corev1.ConditionFalse now
            ReasonSourceInProgress
            ("Syncing revision " ++ revision).

Definition SourceError (now : metav1.Time) (err : option kerrors.error)
  : Panic.M xpv1.Condition :=
  text <- kerrors.Error err ;;
  Panic.ret (condition ConditionTypeSourceSynced corev1.ConditionFalse now
                       ReasonSourceInProgress text).

Definition SupportedCrossplaneVersion (now : metav1.Time) : xpv1.Condition :=
  condition ConditionTypeSupported corev1.ConditionTrue now
            ReasonSupported "".

Definition UnsupportedCrossplaneVersion (now : metav1.Time) (msg : string)
  : xpv1.Condition :=
  condition ConditionTypeSupported corev1.ConditionFalse now
            ReasonUnsupported msg.

Definition RestoreCompleted (now : metav1.Time) : xpv1.Condition :=
  condition ConditionTypeRestored corev1.ConditionTrue now
            ReasonRestoreCompleted
            "Control plane has been restored from specified backup".

Definition RestoreFailed (now : metav1.Time) (err : option kerrors.error)
  : Panic.M xpv1.Condition :=
  text <- kerrors.Error err ;;
  Panic.ret (condition ConditionTypeRestored corev1.ConditionFalse now
                       ReasonRestoreFailed text).

Definition RestorePending (now : metav1.Time) : xpv1.Condition :=
  condition xpv1.TypeReady corev1.ConditionFalse now
            ReasonRestorePending "Control plane restore is pending".

Definition PauseInProgress (now : metav1.Time) : xpv1.Condition :=
  condition ConditionTypePaused corev1.ConditionFalse now
            ReasonPauseInProgress "Control plane is being paused".

Definition PauseCompleted (now : metav1.Time) : xpv1.Condition :=
  condition ConditionTypePaused corev1.ConditionTrue now
            ReasonPauseCompleted "Control plane has been paused".

Definition PauseRestartInProgress (now : metav1.Time) : xpv1.Condition :=
  condition ConditionTypePaused corev1.ConditionFalse now
            ReasonPauseRestartInProgress "Control plane is being restarted".

Definition PauseRestarted (now : metav1.Time) : xpv1.Condition :=
  condition ConditionTypePaused corev1.ConditionFalse now
            ReasonPauseRestarted "Control plane has been restarted".

(** *** [controlplane_types.go] *)
Record SecretReference : Type := {
  Name : string;
  Namespace : string
}.

Record CrossplaneAutoUpgradeSpec : Type := { Channel : option string }.

Record CrossplaneSpec : Type := {
  Version : option string;
  AutoUpgradeSpec : option CrossplaneAutoUpgradeSpec
}.

Record ReconciliationPolicy : Type := { PausedControllers : string }.

Record ControlPlaneStatus : Type := {
  ResourceStatus : xpv1.ResourceStatus;
  Message : string;
  ControlPlaneID : string;
  HostClusterID : string
}.

Section ControlPlane.

(** Types of other packages that the methods below only pass along. *)
Variables TypeMeta ObjectMeta Reference PublishConnectionDetailsTo
          TypedLocalObjectReference : Type.

Record Restore : Type := {
  Source : TypedLocalObjectReference;
  FinishedAt : option metav1.Time
}.

Record ControlPlaneSpec : Type := {
  WriteConnectionSecretToReference : option SecretReference;
  PublishConnectionDetailsTo_ : option PublishConnectionDetailsTo;
  ManagementPolicies : xpv1.ManagementPolicies;
  DeletionPolicy : xpv1.DeletionPolicy;
  Crossplane : CrossplaneSpec;
  Restore_ : option Restore;
  ReconciliationPolicy_ : option ReconciliationPolicy
}.

Record ControlPlane : Type := {
  TypeMeta_ : TypeMeta;
  ObjectMeta_ : ObjectMeta;
  Spec : ControlPlaneSpec;
  Status : ControlPlaneStatus
}.

Definition withSpec (mg : ControlPlane) (spec : ControlPlaneSpec)
  : ControlPlane :=
  {| TypeMeta_ := TypeMeta_ mg; ObjectMeta_ := ObjectMeta_ mg;
     Spec := spec; Status := Status mg |}.

(** The receiver of every method is a pointer; a setter answers with
    what the pointer holds afterwards. *)
Definition GetCondition (mg : option ControlPlane) (ct : xpv1.ConditionType)
  : Panic.M xpv1.Condition :=
  mg' <- Panic.deref mg ;;
  Panic.ret (xpv1.GetCondition
               (xpv1.ConditionedStatus_ (ResourceStatus (Status mg'))) ct).

Definition GetDeletionPolicy (mg : option ControlPlane)
  : Panic.M xpv1.DeletionPolicy :=
  mg' <- Panic.deref mg ;;
  Panic.ret (DeletionPolicy (Spec mg')).

Definition GetManagementPolicies (mg : option ControlPlane)
  : Panic.M xpv1.ManagementPolicies :=
  mg' <- Panic.deref mg ;;
  Panic.ret (ManagementPolicies (Spec mg')).

Definition GetProviderConfigReference (mg : option ControlPlane)
  : Panic.M (option Reference) :=
  Panic.ret None.

Definition GetPublishConnectionDetailsTo (mg : option ControlPlane)
  : Panic.M (option PublishConnectionDetailsTo) :=
  mg' <- Panic.deref mg ;;
  Panic.ret (PublishConnectionDetailsTo_ (Spec mg')).

Definition GetWriteConnectionSecretToReference (mg : option ControlPlane)
  : Panic.M (option xpv1.SecretReference) :=
  mg' <- Panic.deref mg ;;
  match WriteConnectionSecretToReference (Spec mg') with
  | None => Panic.ret None
  | Some ref =>
      Panic.ret (Some {| xpv1.Name := Name ref;
                         xpv1.Namespace := Namespace ref |})
  end.

Definition SetConditions (mg : option ControlPlane) (c : list xpv1.Condition)
  : Panic.M (option ControlPlane) :=
  mg' <- Panic.deref mg ;;
  let st := Status mg' in
  let rs := ResourceStatus st in
  Panic.ret
    (Some {| TypeMeta_ := TypeMeta_ mg'; ObjectMeta_ := ObjectMeta_ mg';
             Spec := Spec mg';
             Status :=
               {| ResourceStatus :=
                    {| xpv1.ConditionedStatus_ :=
                         xpv1.SetConditions (xpv1.ConditionedStatus_ rs) c;
                       xpv1.StatusObservedGeneration :=
                         xpv1.StatusObservedGeneration rs |};
                  Message := Message st;
                  ControlPlaneID := ControlPlaneID st;
                  HostClusterID := HostClusterID st |} |}).

(** The body is empty. *)
Definition SetDeletionPolicy (mg : option ControlPlane)
           (r : xpv1.DeletionPolicy) : Panic.M (option ControlPlane) :=
  Panic.ret mg.

Definition SetManagementPolicies (mg : option ControlPlane)
           (r : xpv1.ManagementPolicies) : Panic.M (option ControlPlane) :=
  mg' <- Panic.deref mg ;;
  let sp := Spec mg' in
  Panic.ret
    (Some (withSpec mg'
             {| WriteConnectionSecretToReference :=
                  WriteConnectionSecretToReference sp;
                PublishConnectionDetailsTo_ := PublishConnectionDetailsTo_ sp;
                ManagementPolicies := r;
                DeletionPolicy := DeletionPolicy sp;
                Crossplane := Crossplane sp;
                Restore_ := Restore_ sp;
                ReconciliationPolicy_ := ReconciliationPolicy_ sp |})).

(** The body is empty. *)
Definition SetProviderReference (mg : option ControlPlane)
           (r : option Reference) : Panic.M (option ControlPlane) :=
  Panic.ret mg.

(** The body is empty. *)
Definition SetProviderConfigReference (mg : option ControlPlane)
           (r : option Reference) : Panic.M (option ControlPlane) :=
  Panic.ret mg.

Definition SetPublishConnectionDetailsTo (mg : option ControlPlane)
           (p : option PublishConnectionDetailsTo)
  : Panic.M (option ControlPlane) :=
  mg' <- Panic.deref mg ;;
  let sp := Spec mg' in
  Panic.ret
    (Some (withSpec mg'
             {| WriteConnectionSecretToReference :=
                  WriteConnectionSecretToReference sp;
                PublishConnectionDetailsTo_ := p;
                ManagementPolicies := ManagementPolicies sp;
                DeletionPolicy := DeletionPolicy sp;
                Crossplane := Crossplane sp;
                Restore_ := Restore_ sp;
                ReconciliationPolicy_ := ReconciliationPolicy_ sp |})).

(** The new reference is built from [r.Name] and [r.Namespace] before
    it is stored: a nil [r] panics, and so does a nil receiver. *)
Definition SetWriteConnectionSecretToReference (mg : option ControlPlane)
           (r : option xpv1.SecretReference)
  : Panic.M (option ControlPlane) :=
  r' <- Panic.deref r ;;
  let ref := {| Name := xpv1.Name r';
                Namespace := xpv1.Namespace r' |} in
  mg' <- Panic.deref mg ;;
  let sp := Spec mg' in
  Panic.ret
    (Some (withSpec mg'
             {| WriteConnectionSecretToReference := Some ref;
                PublishConnectionDetailsTo_ := PublishConnectionDetailsTo_ sp;
                ManagementPolicies := ManagementPolicies sp;
                DeletionPolicy := DeletionPolicy sp;
                Crossplane := Crossplane sp;
                Restore_ := Restore_ sp;
                ReconciliationPolicy_ := ReconciliationPolicy_ sp |})).

End ControlPlane.

Arguments Source {TypedLocalObjectReference} _.
Arguments FinishedAt {TypedLocalObjectReference} _.
Arguments WriteConnectionSecretToReference
          {PublishConnectionDetailsTo TypedLocalObjectReference} _.
Arguments PublishConnectionDetailsTo_
          {PublishConnectionDetailsTo TypedLocalObjectReference} _.
Arguments ManagementPolicies
          {PublishConnectionDetailsTo TypedLocalObjectReference} _.
Arguments DeletionPolicy
          {PublishConnectionDetailsTo TypedLocalObjectReference} _.
Arguments Crossplane {PublishConnectionDetailsTo TypedLocalObjectReference} _.
Arguments Restore_ {PublishConnectionDetailsTo TypedLocalObjectReference} _.
Arguments ReconciliationPolicy_
          {PublishConnectionDetailsTo TypedLocalObjectReference} _.
Arguments TypeMeta_ {TypeMeta ObjectMeta PublishConnectionDetailsTo
                     TypedLocalObjectReference} _.
Arguments ObjectMeta_ {TypeMeta ObjectMeta PublishConnectionDetailsTo
                       TypedLocalObjectReference} _.
Arguments Spec {TypeMeta ObjectMeta PublishConnectionDetailsTo
                TypedLocalObjectReference} _.
Arguments Status {TypeMeta ObjectMeta PublishConnectionDetailsTo
                  TypedLocalObjectReference} _.
Arguments GetCondition {TypeMeta ObjectMeta PublishConnectionDetailsTo
                        TypedLocalObjectReference} _ _.
Arguments GetDeletionPolicy {TypeMeta ObjectMeta PublishConnectionDetailsTo
                             TypedLocalObjectReference} _.
Arguments GetManagementPolicies
          {TypeMeta ObjectMeta PublishConnectionDetailsTo
           TypedLocalObjectReference} _.
Arguments GetProviderConfigReference
          {TypeMeta ObjectMeta} Reference
          {PublishConnectionDetailsTo TypedLocalObjectReference} _.
Arguments GetPublishConnectionDetailsTo
          {TypeMeta ObjectMeta PublishConnectionDetailsTo
           TypedLocalObjectReference} _.
Arguments GetWriteConnectionSecretToReference
          {TypeMeta ObjectMeta PublishConnectionDetailsTo
           TypedLocalObjectReference} _.
Arguments SetConditions {TypeMeta ObjectMeta PublishConnectionDetailsTo
                         TypedLocalObjectReference} _ _.
Arguments SetDeletionPolicy {TypeMeta ObjectMeta PublishConnectionDetailsTo
                             TypedLocalObjectReference} _ _.
Arguments SetManagementPolicies
          {TypeMeta ObjectMeta PublishConnectionDetailsTo
           TypedLocalObjectReference} _ _.
Arguments SetProviderReference
          {TypeMeta ObjectMeta Reference PublishConnectionDetailsTo
           TypedLocalObjectReference} _ _.
Arguments SetProviderConfigReference
          {TypeMeta ObjectMeta Reference PublishConnectionDetailsTo
           TypedLocalObjectReference} _ _.
Arguments SetPublishConnectionDetailsTo
          {TypeMeta ObjectMeta PublishConnectionDetailsTo
           TypedLocalObjectReference} _ _.
Arguments SetWriteConnectionSecretToReference
          {TypeMeta ObjectMeta PublishConnectionDetailsTo
           TypedLocalObjectReference} _ _.

End v1beta1.

(** ** Sample values *)
Module Samples.

Definition target : corev1.TypedObjectReference :=
  {| corev1.APIGroup := Some "example.org/v1";
     corev1.Kind := "Bucket";
     corev1.Name := "assets";
     corev1.Namespace := Some "default" |}.

Definition uid : option string := Some "0b1f-42".


Definition details (causes : list metav1.StatusCause)
  : metav1.StatusDetails :=
  {| metav1.Name := "assets";
     metav1.Group := "example.org";
     metav1.Kind := "buckets";
     metav1.UID := "";
     metav1.Causes := causes;
     metav1.RetryAfterSeconds := 0 |}.





Definition transport : kerrors.error :=
  kerrors.wrapError "cannot patch object: connection refused"
                    (kerrors.errorString "connection refused").

Definition object : unstructured.Unstructured :=
  {| unstructured.Object :=
       [("apiVersion", json.Str "example.org/v1");
        ("kind", json.Str "Bucket");
        ("metadata",
         json.Object [("name", json.Str "assets");
                      ("namespace", json.Str "default");
                      ("uid", json.Str "0b1f-42")])] |}.


Definition reference (message : option string) : v1alpha1.ObjectReference :=
  {| v1alpha1.TypedObjectReference := target;
     v1alpha1.UID := uid;
     v1alpha1.Status := v1alpha1.PatchStateError;
     v1alpha1.Reason := None;
     v1alpha1.Message := message |}.

Definition status (message : option string)
  : v1alpha1_json.InControlPlaneOverrideStatus v1alpha1_json.ObservedStatus.t :=
  {| v1alpha1_json.ResourceStatus_ := 3%Z;
     v1alpha1_json.ObjectRefs :=
       [reference None; reference message] |}.

(** A control plane with two conditions in store. *)
Definition controlPlane : v1beta1.ControlPlane unit unit unit unit :=
  {| v1beta1.TypeMeta_ := tt;
     v1beta1.ObjectMeta_ := tt;
     v1beta1.Spec :=
       {| v1beta1.WriteConnectionSecretToReference := None;
          v1beta1.PublishConnectionDetailsTo_ := None;
          v1beta1.ManagementPolicies := ["*"];
          v1beta1.DeletionPolicy := "Delete";
          v1beta1.Crossplane :=
            {| v1beta1.Version := Some "1.16.0";
               v1beta1.AutoUpgradeSpec := None |};
          v1beta1.Restore_ := None;
          v1beta1.ReconciliationPolicy_ := None |};
     v1beta1.Status :=
       {| v1beta1.ResourceStatus :=
            {| xpv1.ConditionedStatus_ :=
                 {| xpv1.Conditions :=
                      [v1beta1.Healthy 10%Z; v1beta1.PauseInProgress 20%Z] |};
               xpv1.StatusObservedGeneration := 1%Z |};
          v1beta1.Message := "";
          v1beta1.ControlPlaneID := "ctp-1";
          v1beta1.HostClusterID := "host-1" |} |}.

End Samples.

(** * Properties *)

(** ** The matcher agrees with the relation *)
Section RegexpFacts.

Import regexp.
Local Open Scope list_scope.










End RegexpFacts.

(** ** The pattern of [regexFieldNotDeclared] *)
Section PatternFacts.

Import regexp v1alpha1.
Local Open Scope list_scope.



End PatternFacts.

(** ** The classifier *)
Section ClassifierFacts.

Import v1alpha1.

Lemma rangeCauses_conflict causes acc :
  (exists c, In c causes
             /\ metav1.Type_ c = metav1.CauseTypeFieldManagerConflict) ->
  rangeCauses causes acc
  = (PatchStateSkipped, Some PatchStateReasonConflict).
Proof.
  intros (c & Hin & Hc).
  induction causes as [| c' rest IH]; simpl in *; [contradiction |].
  destruct (String.eqb_spec (metav1.Type_ c')
                            metav1.CauseTypeFieldManagerConflict)
    as [_ | Hne]; [reflexivity |].
  destruct Hin as [-> | Hin]; [contradiction | auto].
Qed.

Lemma rangeCauses_no_conflict causes acc :
  (forall c, In c causes ->
             metav1.Type_ c <> metav1.CauseTypeFieldManagerConflict) ->
  rangeCauses causes acc = acc.
Proof.
  induction causes as [| c rest IH]; simpl; intros H; [reflexivity |].
  destruct (String.eqb_spec (metav1.Type_ c)
                            metav1.CauseTypeFieldManagerConflict)
    as [E | _].
  - exfalso. apply (H c); auto.
  - apply IH. intros c' Hin. apply H. auto.
Qed.

Lemma rangeCauses_cases causes acc :
  rangeCauses causes acc
  = (PatchStateSkipped, Some PatchStateReasonConflict)
  \/ rangeCauses causes acc = acc.
Proof.
  induction causes as [| c rest IH]; simpl; [auto |].
  destruct (String.eqb (metav1.Type_ c)
                       metav1.CauseTypeFieldManagerConflict); auto.
Qed.

(** The state and the reason [PatchFailure] settles on, as a function
    of the error alone. *)
Lemma PatchFailure_Some t uid e :
  exists ps reason,
    PatchFailure t uid (Some e)
    = Some {| TypedObjectReference := t; UID := uid; Status := ps;
              Reason := reason;
              Message := Some (kerrors.errorText e) |}
    /\ (ps = PatchStateSkipped \/ ps = PatchStateError)
    /\ forall t' uid',
        PatchFailure t' uid' (Some e)
        = Some {| TypedObjectReference := t'; UID := uid'; Status := ps;
                  Reason := reason;
                  Message := Some (kerrors.errorText e) |}.
Proof.
  unfold PatchFailure.
  destruct (kerrors.As (Some e)) as [sErr |].
  - destruct (kerrors.IsInternalError (Some e)
              && regexp.MatchString regexFieldNotDeclared
                                    (metav1.Message sErr)).
    + do 2 eexists. repeat split; auto.
    + destruct (metav1.Details sErr) as [d |].
      * destruct (rangeCauses_cases (metav1.Causes d)
                    (PatchStateError, ptr.To (metav1.Reason sErr)))
          as [E | E]; rewrite E; do 2 eexists; repeat split; auto.
      * do 2 eexists. repeat split; auto.
  - do 2 eexists. repeat split; auto.
Qed.



End ClassifierFacts.

(** ** Claims about the classifier *)
Section ClassifierClaims.

Import v1alpha1.










(** C5: for an error that does not unwrap to a [StatusError],
    [PatchFailure] returns the reference with status [Error], no
    reason, and the error text as message. *)
Theorem PatchFailure_unstructured t uid e :
  kerrors.As (Some e) = None ->
  PatchFailure t uid (Some e)
  = Some {| TypedObjectReference := t; UID := uid;
            Status := PatchStateError;
            Reason := None;
            Message := Some (kerrors.errorText e) |}.
Proof.
  intros HAs. unfold PatchFailure. rewrite HAs. reflexivity.
Qed.

Lemma PatchFailure_unstructured_witness :
  PatchFailure Samples.target Samples.uid (Some Samples.transport)
  = Some {| TypedObjectReference := Samples.target; UID := Samples.uid;
            Status := PatchStateError;
            Reason := None;
            Message := Some "cannot patch object: connection refused" |}.
Proof.
  apply (PatchFailure_unstructured Samples.target Samples.uid
                                   Samples.transport).
  reflexivity.
Defined.

(** C6: for a patched object, [PatchSuccess] returns a record with
    status [Success] that carries the UID of the object and has no
    reason; and a record of [PatchFailure], the only one that may hold
    a reason, has status [Skipped] or [Error]. *)
Theorem PatchSuccess_record u t uid e :
  exists r r',
    PatchSuccess (Some u) = Some r
    /\ Status r = PatchStateSuccess
    /\ UID r = Some (unstructured.getNestedString
                       (unstructured.Object u) ["metadata"; "uid"])
    /\ Reason r = None
    /\ PatchFailure t uid (Some e) = Some r'
    /\ (Status r' = PatchStateSkipped \/ Status r' = PatchStateError).
Proof.
  destruct (PatchFailure_Some t uid e) as (ps & reason & E & Hps & _).
  do 2 eexists. split; [reflexivity |].
  repeat split; [exact E | exact Hps].
Qed.

(** C7: [PatchFailure] returns a record for every error, structured or
    not, and the state and the reason of the record are settled by the
    error: two calls on the same error give the same [Status] and the
    same [Reason], whatever the reference and the UID. *)
Theorem PatchFailure_total_deterministic e t1 uid1 t2 uid2 :
  exists r1 r2,
    PatchFailure t1 uid1 (Some e) = Some r1
    /\ PatchFailure t2 uid2 (Some e) = Some r2
    /\ Status r1 = Status r2
    /\ Reason r1 = Reason r2.
Proof.
  destruct (PatchFailure_Some t1 uid1 e) as (ps & reason & E & _ & Hall).
  do 2 eexists. split; [exact E |]. split; [apply Hall |].
  split; reflexivity.
Qed.

(** C8: [Traversed] returns a condition of type [Ready] with status
    [True] and reason [Traversed]; [Deleted] returns a condition of
    type [Ready] with status [False] and reason [Deleted]; whatever
    the clock reads. *)
Theorem Traversed_Deleted_conditions now :
  xpv1.Type_ (Traversed now) = "Ready"
  /\ xpv1.Status (Traversed now) = "True"
  /\ xpv1.Reason (Traversed now) = "Traversed"
  /\ xpv1.Type_ (Deleted now) = "Ready"
  /\ xpv1.Status (Deleted now) = "False"
  /\ xpv1.Reason (Deleted now) = "Deleted".
Proof. repeat split. Qed.

(** C10: [String] on the nil receiver returns the text [nil] without
    a panic; on a record it returns the text of the embedded reference
    followed by the UID, the status, the reason and the message, an
    unset UID, reason or message written as the empty string. *)
Theorem String_nil_and_fields
        (TypedObjectReference_String : corev1.TypedObjectReference -> string) :
  String TypedObjectReference_String None = Some "nil"
  /\ forall r,
      String TypedObjectReference_String (Some r)
      = Some (TypedObjectReference_String (TypedObjectReference r)
              ++ ", UID: '"
              ++ match UID r with Some u => u | None => "" end
              ++ "', Status: " ++ Status r
              ++ ", Reason: '"
              ++ match Reason r with Some x => x | None => "" end
              ++ "', Message: '"
              ++ match Message r with Some m => m | None => "" end
              ++ "'").
Proof.
  split; [reflexivity |]. intros r. reflexivity.
Qed.

End ClassifierClaims.

(** ** JSON round trip *)
Section CodecFacts.

Import v1alpha1 v1alpha1_json.

Lemma valid_coerce s : forall k, utf8.valid k s = true -> utf8.coerce k s = s.
Proof.
  induction s as [| b rest IH]; intros k; simpl; [reflexivity |].
  destruct k as [| k'].
  - destruct (utf8.decodeRune b rest) as [w |]; [| discriminate].
    intros H. rewrite (IH w H). reflexivity.
  - intros H. rewrite (IH k' H). reflexivity.
Qed.

Lemma marshalString_valid s :
  utf8.ValidString s = true -> encoding.marshalString s = json.Str s.
Proof.
  intros H. unfold encoding.marshalString, utf8.ToValidUTF8.
  rewrite (valid_coerce s 0 H). reflexivity.
Qed.

Lemma marshalStringPtr_valid p :
  validPtr p = true ->
  encoding.marshalStringPtr p
  = match p with Some s => json.Str s | None => json.Null end.
Proof.
  destruct p as [s |]; simpl; [apply marshalString_valid | reflexivity].
Qed.

Lemma omitemptyStringPtr_valid name p :
  validPtr p = true ->
  encoding.omitemptyStringPtr name p
  = match p with Some s => [(name, json.Str s)] | None => [] end.
Proof.
  destruct p as [s |]; simpl; [| reflexivity].
  intros H. rewrite (marshalString_valid s H). reflexivity.
Qed.



(** A record whose strings are valid UTF-8 comes back as it was. *)
Lemma unmarshal_marshal_ObjectReference r :
  validObjectReference r = true ->
  unmarshalObjectReference (marshalObjectReference r) = Some r.
Proof.
  destruct r as [[g k n ns] u st re m].
  unfold validObjectReference. simpl. intros H.
  repeat (apply andb_true_iff in H as [H ?]).
  unfold marshalObjectReference, marshalTypedObjectReference. simpl.
  rewrite (marshalStringPtr_valid g), (marshalString_valid k),
    (marshalString_valid n), (omitemptyStringPtr_valid _ ns),
    (omitemptyStringPtr_valid _ u), (marshalString_valid st),
    (omitemptyStringPtr_valid _ re), (omitemptyStringPtr_valid _ m)
    by assumption.
  destruct g, ns, u, re, m; reflexivity.
Qed.



End CodecFacts.

Section StatusRoundTrip.

Import v1alpha1 v1alpha1_json.

Variable ResourceStatus : Type.
Variable zeroResourceStatus : ResourceStatus.
Variable marshalResourceStatus : ResourceStatus -> list (string * json.Value).
Variable unmarshalResourceStatusMember :
  ResourceStatus -> string -> json.Value -> option ResourceStatus.



End StatusRoundTrip.

Section StatusRoundTripInstances.

Import v1alpha1 v1alpha1_json.





End StatusRoundTripInstances.

(** ** Nil arguments *)
Section NilFacts.

Import v1alpha1.

(** On the nil error interface [PatchFailure] panics at [err.Error()]. *)
Remark PatchFailure_nil t uid : PatchFailure t uid None = None.
Proof. reflexivity. Qed.

(** On a nil object [PatchSuccess] panics at the first getter. *)
Remark PatchSuccess_nil : PatchSuccess None = None.
Proof. reflexivity. Qed.

(** [NotFound] has no nil check. *)
Remark NotFound_nil : NotFound None = None.
Proof. reflexivity. Qed.

End NilFacts.

(** * Further properties of the classifier *)
Section ClassifierLaws.

Import v1alpha1.

Lemma rangeCauses_decide causes :
  (exists c, In c causes
             /\ metav1.Type_ c = metav1.CauseTypeFieldManagerConflict)
  \/ (forall c, In c causes ->
                metav1.Type_ c <> metav1.CauseTypeFieldManagerConflict).
Proof.
  induction causes as [| c rest [(c' & Hin & Hc) | Hnone]].
  - right. intros c [].
  - left. exists c'. split; [right |]; assumption.
  - destruct (String.eqb_spec (metav1.Type_ c)
                              metav1.CauseTypeFieldManagerConflict)
      as [E | Hne].
    + left. exists c. split; [left; reflexivity | exact E].
    + right. intros c' [<- | Hin]; auto.
Qed.

Lemma IsInternalError_reason e sErr :
  kerrors.As (Some e) = Some sErr ->
  kerrors.IsInternalError (Some e) = true <->
  metav1.Reason sErr = metav1.StatusReasonInternalError.
Proof.
  intros HAs. unfold kerrors.IsInternalError, kerrors.ReasonForError.
  rewrite HAs. apply String.eqb_eq.
Qed.

(** What [PatchFailure] returns, case by case. *)
Lemma PatchFailure_cases t uid e :
  (exists sErr,
      kerrors.As (Some e) = Some sErr
      /\ kerrors.IsInternalError (Some e) = true
      /\ regexp.MatchString regexFieldNotDeclared (metav1.Message sErr) = true
      /\ PatchFailure t uid (Some e)
         = Some {| TypedObjectReference := t; UID := uid;
                   Status := PatchStateSkipped;
                   Reason := Some PatchStateReasonSchemaMismatch;
                   Message := Some (kerrors.errorText e) |})
  \/ (exists sErr d c,
         kerrors.As (Some e) = Some sErr
         /\ kerrors.IsInternalError (Some e)
            && regexp.MatchString regexFieldNotDeclared (metav1.Message sErr)
            = false
         /\ metav1.Details sErr = Some d
         /\ In c (metav1.Causes d)
         /\ metav1.Type_ c = metav1.CauseTypeFieldManagerConflict
         /\ PatchFailure t uid (Some e)
            = Some {| TypedObjectReference := t; UID := uid;
                      Status := PatchStateSkipped;
                      Reason := Some PatchStateReasonConflict;
                      Message := Some (kerrors.errorText e) |})
  \/ (exists sErr,
         kerrors.As (Some e) = Some sErr
         /\ kerrors.IsInternalError (Some e)
            && regexp.MatchString regexFieldNotDeclared (metav1.Message sErr)
            = false
         /\ (forall d c, metav1.Details sErr = Some d ->
                         In c (metav1.Causes d) ->
                         metav1.Type_ c
                         <> metav1.CauseTypeFieldManagerConflict)
         /\ PatchFailure t uid (Some e)
            = Some {| TypedObjectReference := t; UID := uid;
                      Status := PatchStateError;
                      Reason := Some (metav1.Reason sErr);
                      Message := Some (kerrors.errorText e) |})
  \/ (kerrors.As (Some e) = None
      /\ PatchFailure t uid (Some e)
         = Some {| TypedObjectReference := t; UID := uid;
                   Status := PatchStateError;
                   Reason := None;
                   Message := Some (kerrors.errorText e) |}).
Proof.
  unfold PatchFailure.
  destruct (kerrors.As (Some e)) as [sErr |] eqn:HAs;
    [| right; right; right; auto].
  destruct (kerrors.IsInternalError (Some e)
            && regexp.MatchString regexFieldNotDeclared
                                  (metav1.Message sErr)) eqn:Hrule.
  - left. apply andb_true_iff in Hrule as [Hint Hre].
    exists sErr. auto.
  - right. destruct (metav1.Details sErr) as [d |] eqn:Hd.
    + destruct (rangeCauses_decide (metav1.Causes d))
        as [(c & Hin & Hc) | Hnone].
      * left. exists sErr, d, c.
        rewrite (rangeCauses_conflict
                   (metav1.Causes d) _ (ex_intro _ c (conj Hin Hc))).
        auto 10.
      * right. left. exists sErr.
        rewrite (rangeCauses_no_conflict (metav1.Causes d) _ Hnone).
        split; [first [reflexivity | assumption] |].
        split; [first [reflexivity | assumption] |].
        split; [| reflexivity].
        intros d' c' E Hin'. assert (Ed : d' = d) by congruence.
        subst d'. apply Hnone. exact Hin'.
    + right. left. exists sErr.
      split; [first [reflexivity | assumption] |].
      split; [first [reflexivity | assumption] |].
      split; [| reflexivity].
      intros d' c' E. congruence.
Qed.



(** X3: wrapping an error changes the message of the record and
    nothing else: the state and the reason are those of the wrapped
    error, the message is the text of the wrapper. *)
Theorem PatchFailure_wrapError t uid msg e :
  exists r,
    PatchFailure t uid (Some e) = Some r
    /\ PatchFailure t uid (Some (kerrors.wrapError msg e))
       = Some {| TypedObjectReference := TypedObjectReference r;
                 UID := UID r;
                 Status := Status r;
                 Reason := Reason r;
                 Message := Some msg |}.
Proof.
  destruct (PatchFailure_Some t uid e) as (ps & reason & E & _ & _).
  eexists. split; [exact E |]. cbn [TypedObjectReference UID Status Reason].
  revert E. unfold PatchFailure, kerrors.IsInternalError,
            kerrors.ReasonForError.
  cbn [kerrors.As kerrors.AsStatusError kerrors.Error kerrors.errorText
       Panic.bind Panic.deref Panic.ret].
  destruct (kerrors.AsStatusError e) as [sErr |].
  - destruct (String.eqb (metav1.Reason sErr)
                         metav1.StatusReasonInternalError
              && regexp.MatchString regexFieldNotDeclared
                                    (metav1.Message sErr)).
    + intros E. injection E as <- <-. reflexivity.
    + destruct (metav1.Details sErr) as [d |].
      * destruct (rangeCauses (metav1.Causes d)
                    (PatchStateError, ptr.To (metav1.Reason sErr)))
          as [ps' reason'].
        intros E. injection E as <- <-. reflexivity.
      * intros E. injection E as <- <-. reflexivity.
  - intros E. injection E as <- <-. reflexivity.
Qed.

(** X4: [NotFound] answers true on the record of [PatchFailure] exactly
    when the error unwraps to a status with reason [NotFound] that holds
    no cause of type [FieldManagerConflict]. *)
Theorem NotFound_PatchFailure_iff t uid e :
  (r <- PatchFailure t uid (Some e) ;; NotFound (Some r)) = Some true <->
  exists sErr,
    kerrors.As (Some e) = Some sErr
    /\ metav1.Reason sErr = metav1.StatusReasonNotFound
    /\ forall d c, metav1.Details sErr = Some d ->
                   In c (metav1.Causes d) ->
                   metav1.Type_ c <> metav1.CauseTypeFieldManagerConflict.
Proof.
  destruct (PatchFailure_cases t uid e)
    as [(sErr & HAs & Hint & Hre & E)
       | [(sErr & d & c & HAs & Hno & Hd & Hin & Hc & E)
         | [(sErr & HAs & Hno & Hnone & E) | (HAs & E)]]];
    rewrite E; cbn [Panic.bind]; unfold NotFound;
    cbn [Panic.bind Panic.deref Panic.ret Status Reason ptr.Deref].
  - split; [intros H; discriminate |].
    intros (s' & HAs' & HR & _). rewrite HAs in HAs'. injection HAs' as <-.
    apply (IsInternalError_reason e sErr HAs) in Hint.
    rewrite Hint in HR. discriminate.
  - split; [intros H; discriminate |].
    intros (s' & HAs' & _ & Hnone). rewrite HAs in HAs'.
    injection HAs' as <-. exfalso. exact (Hnone d c Hd Hin Hc).
  - split.
    + intros H. injection H as H. apply String.eqb_eq in H.
      exists sErr. auto.
    + intros (s' & HAs' & HR & _). rewrite HAs in HAs'.
      injection HAs' as <-. rewrite HR. reflexivity.
  - split; [intros H; discriminate |].
    intros (s' & HAs' & _). rewrite HAs in HAs'. discriminate.
Qed.

(** X5: the record of [PatchFailure] has no reason exactly when the
    error does not unwrap to a [StatusError]; its message is always
    set, and the reference and the UID are the ones passed in. *)
Theorem PatchFailure_reason_unset_iff t uid e :
  exists r,
    PatchFailure t uid (Some e) = Some r
    /\ (Reason r = None <-> kerrors.As (Some e) = None)
    /\ Message r = Some (kerrors.errorText e)
    /\ TypedObjectReference r = t
    /\ UID r = uid.
Proof.
  destruct (PatchFailure_cases t uid e)
    as [(sErr & HAs & _ & _ & E)
       | [(sErr & d & c & HAs & _ & _ & _ & _ & E)
         | [(sErr & HAs & _ & _ & E) | (HAs & E)]]];
    eexists; (split; [exact E |]);
    cbn [Reason Message TypedObjectReference UID];
    repeat split; auto; try discriminate;
    rewrite HAs; discriminate.
Qed.

End ClassifierLaws.

(** * Conditions: [GetCondition] and [SetConditions] *)
Section ConditionFacts.

Import xpv1.
Local Open Scope list_scope.

Lemma Equal_spec c other :
  Equal c other = true <->
  Type_ c = Type_ other /\ Status c = Status other
  /\ Reason c = Reason other /\ Message c = Message other
  /\ ObservedGeneration c = ObservedGeneration other.
Proof.
  unfold Equal. rewrite !andb_true_iff, !String.eqb_eq, Z.eqb_eq. tauto.
Qed.

Lemma Equal_refl c : Equal c c = true.
Proof. apply Equal_spec. auto. Qed.

Lemma Equal_trans a b c :
  Equal a b = true -> Equal b c = true -> Equal a c = true.
Proof.
  rewrite !Equal_spec. intros (? & ? & ? & ? & ?) (? & ? & ? & ? & ?).
  repeat split; congruence.
Qed.

Lemma Equal_Type a b : Equal a b = true -> Type_ a = Type_ b.
Proof. rewrite Equal_spec. tauto. Qed.

(** The inner loop is a map, and the flag tells whether the type was
    there. *)
Lemma rangeConditions_map existing new : forall found,
  rangeConditions existing new found
  = (map (fun e => if String.eqb (Type_ e) (Type_ new)
                   then if Equal e new then e else new
                   else e) existing,
     found || existsb (fun e => String.eqb (Type_ e) (Type_ new)) existing).
Proof.
  induction existing as [| e rest IH]; intros found; simpl.
  - rewrite orb_false_r. reflexivity.
  - destruct (String.eqb (Type_ e) (Type_ new)); simpl.
    + destruct (Equal e new); rewrite IH; simpl;
        rewrite orb_true_r; reflexivity.
    + rewrite IH. reflexivity.
Qed.

Lemma map_replace_absent new conditions :
  existsb (fun e => String.eqb (Type_ e) (Type_ new)) conditions = false ->
  map (fun e => if String.eqb (Type_ e) (Type_ new)
                then if Equal e new then e else new
                else e) conditions
  = conditions.
Proof.
  induction conditions as [| e rest IH]; simpl; [reflexivity |].
  intros H. apply orb_false_iff in H as [He Hrest].
  rewrite He, (IH Hrest). reflexivity.
Qed.

Lemma setCondition_cases conditions new :
  setCondition conditions new
  = if existsb (fun e => String.eqb (Type_ e) (Type_ new)) conditions
    then map (fun e => if String.eqb (Type_ e) (Type_ new)
                       then if Equal e new then e else new
                       else e) conditions
    else conditions ++ [new].
Proof.
  unfold setCondition. rewrite rangeConditions_map. simpl.
  destruct (existsb _ conditions) eqn:Hex; [reflexivity |].
  rewrite (map_replace_absent new conditions Hex). reflexivity.
Qed.

Lemma findCondition_app l1 l2 ct :
  findCondition (l1 ++ l2) ct
  = match findCondition l1 ct with
    | Some c => Some c
    | None => findCondition l2 ct
    end.
Proof.
  induction l1 as [| c rest IH]; simpl; [reflexivity |].
  destruct (String.eqb (Type_ c) ct); auto.
Qed.

Lemma findCondition_existsb conditions ct :
  existsb (fun e => String.eqb (Type_ e) ct) conditions
  = match findCondition conditions ct with
    | Some _ => true
    | None => false
    end.
Proof.
  induction conditions as [| c rest IH]; simpl; [reflexivity |].
  destruct (String.eqb (Type_ c) ct); auto.
Qed.

Lemma findCondition_Type conditions ct c :
  findCondition conditions ct = Some c -> Type_ c = ct /\ In c conditions.
Proof.
  induction conditions as [| e rest IH]; simpl; [discriminate |].
  destruct (String.eqb_spec (Type_ e) ct) as [E | _].
  - intros H. injection H as <-. auto.
  - intros H. destruct (IH H). auto.
Qed.

Lemma findCondition_replace_same new conditions :
  findCondition
    (map (fun e => if String.eqb (Type_ e) (Type_ new)
                   then if Equal e new then e else new
                   else e) conditions) (Type_ new)
  = option_map (fun e => if Equal e new then e else new)
               (findCondition conditions (Type_ new)).
Proof.
  induction conditions as [| e rest IH]; simpl; [reflexivity |].
  destruct (String.eqb (Type_ e) (Type_ new)) eqn:He.
  - destruct (Equal e new) eqn:HE; simpl;
      rewrite ?He, ?String.eqb_refl; simpl; rewrite ?HE; reflexivity.
  - simpl. rewrite He. exact IH.
Qed.

Lemma findCondition_replace_other new conditions ct :
  ct <> Type_ new ->
  findCondition
    (map (fun e => if String.eqb (Type_ e) (Type_ new)
                   then if Equal e new then e else new
                   else e) conditions) ct
  = findCondition conditions ct.
Proof.
  intros Hct. induction conditions as [| e rest IH]; simpl; [reflexivity |].
  destruct (String.eqb_spec (Type_ e) (Type_ new)) as [E | _].
  - assert (He : String.eqb (Type_ e) ct = false)
      by (apply String.eqb_neq; congruence).
    rewrite He.
    destruct (Equal e new); simpl.
    + rewrite He. exact IH.
    + assert (Hn : String.eqb (Type_ new) ct = false)
        by (apply String.eqb_neq; congruence).
      rewrite Hn. exact IH.
  - simpl. rewrite IH. reflexivity.
Qed.

(** After one condition is set, asking for its type finds a condition
    [Equal] to it. *)
Lemma findCondition_setCondition_same conditions new :
  exists c, findCondition (setCondition conditions new) (Type_ new) = Some c
            /\ Equal c new = true.
Proof.
  rewrite setCondition_cases, (findCondition_existsb conditions (Type_ new)).
  destruct (findCondition conditions (Type_ new)) as [e |] eqn:Hf.
  - rewrite findCondition_replace_same, Hf. simpl.
    destruct (Equal e new) eqn:He; eexists; split;
      [reflexivity | exact He | reflexivity | apply Equal_refl].
  - rewrite findCondition_app, Hf. simpl. rewrite String.eqb_refl.
    eexists. split; [reflexivity | apply Equal_refl].
Qed.

(** The other types are left alone. *)
Lemma findCondition_setCondition_other conditions new ct :
  ct <> Type_ new ->
  findCondition (setCondition conditions new) ct
  = findCondition conditions ct.
Proof.
  intros Hct. rewrite setCondition_cases.
  destruct (existsb _ conditions).
  - apply findCondition_replace_other. exact Hct.
  - rewrite findCondition_app. simpl.
    assert (Hn : String.eqb (Type_ new) ct = false)
      by (apply String.eqb_neq; congruence).
    rewrite Hn. destruct (findCondition conditions ct); reflexivity.
Qed.

(** The last supplied condition of a type decides what is found. *)
Lemma findCondition_fold_setCondition c : forall conditions ct,
  match findCondition (rev c) ct with
  | Some new =>
      exists x, findCondition (fold_left setCondition c conditions) ct
                = Some x
                /\ Equal x new = true
  | None =>
      findCondition (fold_left setCondition c conditions) ct
      = findCondition conditions ct
  end.
Proof.
  induction c as [| new rest IH]; intros conditions ct; simpl;
    [reflexivity |].
  rewrite findCondition_app. specialize (IH (setCondition conditions new) ct).
  destruct (findCondition (rev rest) ct) as [l |]; [exact IH |].
  simpl. destruct (String.eqb_spec (Type_ new) ct) as [E | Hne].
  - rewrite IH. subst ct. apply findCondition_setCondition_same.
  - rewrite IH. apply findCondition_setCondition_other. congruence.
Qed.

(** Every condition of the type just set is [Equal] to what was set. *)
Lemma setCondition_Equal conditions new e :
  In e (setCondition conditions new) ->
  Type_ e = Type_ new ->
  Equal e new = true.
Proof.
  rewrite setCondition_cases.
  destruct (existsb _ conditions) eqn:Hex.
  - intros Hin HT. apply in_map_iff in Hin as (x & <- & _).
    destruct (String.eqb (Type_ x) (Type_ new)) eqn:Hx.
    + destruct (Equal x new) eqn:HE; [exact HE | apply Equal_refl].
    + apply String.eqb_neq in Hx. contradiction.
  - intros Hin HT. apply in_app_or in Hin as [Hin | [<- | []]];
      [| apply Equal_refl].
    exfalso. assert (Hx : existsb (fun e0 => String.eqb (Type_ e0)
                                                        (Type_ new))
                                  conditions = true).
    { apply existsb_exists. exists e. split; [exact Hin |].
      apply String.eqb_eq. exact HT. }
    rewrite Hx in Hex. discriminate.
Qed.

(** Setting a condition where every condition of its type is already
    [Equal] to it, and there is one, changes nothing. *)
Lemma setCondition_noop conditions new :
  existsb (fun e => String.eqb (Type_ e) (Type_ new)) conditions = true ->
  (forall e, In e conditions -> Type_ e = Type_ new -> Equal e new = true) ->
  setCondition conditions new = conditions.
Proof.
  intros Hex Hall. rewrite setCondition_cases, Hex.
  clear Hex. induction conditions as [| e rest IH]; simpl; [reflexivity |].
  rewrite IH by (intros x Hin; apply Hall; right; exact Hin).
  destruct (String.eqb_spec (Type_ e) (Type_ new)) as [E | _];
    [| reflexivity].
  rewrite (Hall e (or_introl eq_refl) E). reflexivity.
Qed.

Lemma setCondition_again conditions c1 c2 :
  Equal c1 c2 = true ->
  setCondition (setCondition conditions c1) c2 = setCondition conditions c1.
Proof.
  intros HE. pose proof (Equal_Type c1 c2 HE) as HT.
  apply setCondition_noop.
  - rewrite findCondition_existsb, <- HT.
    destruct (findCondition_setCondition_same conditions c1) as (x & -> & _).
    reflexivity.
  - intros e Hin He. apply (Equal_trans e c1 c2); [| exact HE].
    apply (setCondition_Equal conditions c1 e Hin). congruence.
Qed.

(** The types in store: those of before, and the new one at the end
    when it was not there. *)
Lemma setCondition_types conditions new :
  map Type_ (setCondition conditions new)
  = if existsb (fun e => String.eqb (Type_ e) (Type_ new)) conditions
    then map Type_ conditions
    else map Type_ conditions ++ [Type_ new].
Proof.
  rewrite setCondition_cases.
  destruct (existsb _ conditions); [| rewrite map_app; reflexivity].
  rewrite map_map. apply map_ext. intros e.
  destruct (String.eqb_spec (Type_ e) (Type_ new)) as [E | _];
    [| reflexivity].
  destruct (Equal e new); congruence.
Qed.

Lemma setCondition_NoDup conditions new :
  NoDup (map Type_ conditions) ->
  NoDup (map Type_ (setCondition conditions new)).
Proof.
  intros Hnd. rewrite setCondition_types.
  destruct (existsb _ conditions) eqn:Hex; [exact Hnd |].
  apply NoDup_app; [exact Hnd | repeat constructor; intros [] |].
  intros ty Hin [<- | []].
  apply in_map_iff in Hin as (e & HT & Hin).
  assert (Hx : existsb (fun e0 => String.eqb (Type_ e0) (Type_ new))
                       conditions = true).
  { apply existsb_exists. exists e. split; [exact Hin |].
    apply String.eqb_eq. exact HT. }
  rewrite Hx in Hex. discriminate.
Qed.

Lemma setCondition_keeps_types conditions new ty :
  In ty (map Type_ conditions) ->
  In ty (map Type_ (setCondition conditions new)).
Proof.
  rewrite setCondition_types. destruct (existsb _ conditions); [auto |].
  intros H. apply in_or_app. auto.
Qed.

End ConditionFacts.

(** * The control plane: conditions *)
Section ControlPlaneConditions.

Import v1beta1.
Local Open Scope list_scope.

Variables TypeMeta ObjectMeta PublishConnectionDetailsTo
          TypedLocalObjectReference : Type.

Local Abbreviation ControlPlane :=
  (v1beta1.ControlPlane TypeMeta ObjectMeta PublishConnectionDetailsTo
                        TypedLocalObjectReference).

(** X6: after [SetConditions], [GetCondition] of a type answers with a
    condition [Equal] to the last supplied condition of that type, and
    as before when none of that type was supplied; the spec is not
    touched. *)
Theorem ControlPlane_GetCondition_SetConditions
        (mg : ControlPlane) (c : list xpv1.Condition)
        (ct : xpv1.ConditionType) :
  exists mg',
    SetConditions (Some mg) c = Some (Some mg')
    /\ Spec mg' = Spec mg
    /\ match xpv1.findCondition (rev c) ct with
       | Some new =>
           exists x, GetCondition (Some mg') ct = Some x
                     /\ xpv1.Equal x new = true
       | None => GetCondition (Some mg') ct = GetCondition (Some mg) ct
       end.
Proof.
  eexists. split; [reflexivity |]. split; [reflexivity |].
  unfold GetCondition, xpv1.GetCondition, xpv1.SetConditions.
  cbn [Panic.bind Panic.deref Panic.ret Status ResourceStatus
       xpv1.ConditionedStatus_ xpv1.Conditions].
  pose proof (findCondition_fold_setCondition
                c (xpv1.Conditions
                     (xpv1.ConditionedStatus_ (ResourceStatus (Status mg))))
                ct) as H.
  destruct (xpv1.findCondition (rev c) ct) as [new |].
  - destruct H as (x & -> & HE). exists x. auto.
  - rewrite H. reflexivity.
Qed.

(** X7: setting a condition that is [Equal] to the one set just before
    changes nothing: the stored condition keeps its last transition
    time. *)
Theorem ControlPlane_SetConditions_again
        (mg : ControlPlane) (c1 c2 : xpv1.Condition) :
  xpv1.Equal c1 c2 = true ->
  (mg1 <- SetConditions (Some mg) [c1] ;; SetConditions mg1 [c2])
  = SetConditions (Some mg) [c1].
Proof.
  intros HE. unfold SetConditions, xpv1.SetConditions.
  cbn [Panic.bind Panic.deref Panic.ret Status ResourceStatus
       xpv1.ConditionedStatus_ xpv1.Conditions xpv1.StatusObservedGeneration
       TypeMeta_ ObjectMeta_ Spec Message ControlPlaneID HostClusterID
       fold_left].
  rewrite (setCondition_again _ c1 c2 HE). reflexivity.
Qed.

(** X9: when the types in store are distinct they stay distinct, and
    no type in store is lost. *)
Theorem ControlPlane_SetConditions_types
        (mg : ControlPlane) (c : list xpv1.Condition) :
  NoDup (map xpv1.Type_
             (xpv1.Conditions
                (xpv1.ConditionedStatus_ (ResourceStatus (Status mg))))) ->
  exists mg',
    SetConditions (Some mg) c = Some (Some mg')
    /\ NoDup (map xpv1.Type_
                  (xpv1.Conditions
                     (xpv1.ConditionedStatus_
                        (ResourceStatus (Status mg')))))
    /\ forall ty,
        In ty (map xpv1.Type_
                   (xpv1.Conditions
                      (xpv1.ConditionedStatus_
                         (ResourceStatus (Status mg))))) ->
        In ty (map xpv1.Type_
                   (xpv1.Conditions
                      (xpv1.ConditionedStatus_
                         (ResourceStatus (Status mg'))))).
Proof.
  intros Hnd. eexists. split; [reflexivity |].
  cbn [Status ResourceStatus xpv1.ConditionedStatus_ xpv1.Conditions
       xpv1.SetConditions].
  generalize dependent (xpv1.Conditions
                          (xpv1.ConditionedStatus_
                             (ResourceStatus (Status mg)))).
  induction c as [| new rest IH]; intros conditions Hnd; simpl;
    [split; auto |].
  destruct (IH (xpv1.setCondition conditions new)
               (setCondition_NoDup conditions new Hnd)) as [H1 H2].
  split; [exact H1 |]. intros ty Hin. apply H2.
  apply setCondition_keeps_types. exact Hin.
Qed.

(** X10: [GetCondition] always answers with a condition of the type
    asked for; when no condition of that type is in store its status is
    [Unknown] and its other fields are zero.  A nil receiver panics. *)
Theorem ControlPlane_GetCondition_type
        (mg : ControlPlane) (ct : xpv1.ConditionType) :
  (exists c,
      GetCondition (Some mg) ct = Some c
      /\ xpv1.Type_ c = ct
      /\ ((forall e,
              In e (xpv1.Conditions
                      (xpv1.ConditionedStatus_
                         (ResourceStatus (Status mg)))) ->
              xpv1.Type_ e <> ct) ->
          c = {| xpv1.Type_ := ct;
                 xpv1.Status := corev1.ConditionUnknown;
                 xpv1.LastTransitionTime := xpv1.zeroTime;
                 xpv1.Reason := "";
                 xpv1.Message := "";
                 xpv1.ObservedGeneration := 0 |}))
  /\ GetCondition (None : option ControlPlane) ct = None.
Proof.
  split; [| reflexivity].
  unfold GetCondition, xpv1.GetCondition.
  cbn [Panic.bind Panic.deref Panic.ret].
  destruct (xpv1.findCondition _ ct) as [c |] eqn:Hf.
  - destruct (findCondition_Type _ _ _ Hf) as [HT Hin].
    exists c. split; [reflexivity |]. split; [exact HT |].
    intros Hnone. exfalso. exact (Hnone c Hin HT).
  - eexists. split; [reflexivity |]. split; [reflexivity |]. reflexivity.
Qed.

End ControlPlaneConditions.

Section ControlPlaneConditionsInstances.

Import v1beta1.

Lemma ControlPlane_SetConditions_again_witness :
  (mg1 <- SetConditions (Some Samples.controlPlane) [Unhealthy 30%Z] ;;
   SetConditions mg1 [Unhealthy 40%Z])
  = SetConditions (Some Samples.controlPlane) [Unhealthy 30%Z].
Proof.
  apply (ControlPlane_SetConditions_again
           unit unit unit unit Samples.controlPlane
           (Unhealthy 30%Z) (Unhealthy 40%Z)).
  reflexivity.
Defined.

Lemma ControlPlane_SetConditions_types_witness :
  exists mg',
    SetConditions (Some Samples.controlPlane)
                  [Unhealthy 30%Z; RestorePending 31%Z] = Some (Some mg')
    /\ NoDup (map xpv1.Type_
                  (xpv1.Conditions
                     (xpv1.ConditionedStatus_
                        (ResourceStatus (Status mg'))))).
Proof.
  destruct (ControlPlane_SetConditions_types
              unit unit unit unit Samples.controlPlane
              [Unhealthy 30%Z; RestorePending 31%Z]) as (mg' & E & Hnd & _).
  - simpl. repeat constructor; simpl; intuition discriminate.
  - exists mg'. split; [exact E | exact Hnd].
Defined.

End ControlPlaneConditionsInstances.

(** * The condition constructors *)
Section ConstructorFacts.

Import v1beta1.

(** X8: a constructor called again later, with the same arguments,
    gives a condition [Equal] to the first one, so that setting it a
    second time leaves the store, and the first transition time, as
    they are. *)
Theorem constructors_SetConditions_again
        (s : xpv1.ConditionedStatus) (now1 now2 : metav1.Time)
        (revision msg : string) :
  Forall (fun k : metav1.Time -> xpv1.Condition =>
            xpv1.SetConditions (xpv1.SetConditions s [k now1]) [k now2]
            = xpv1.SetConditions s [k now1])
         [Healthy; Unhealthy; ControlPlaneProvisioned;
          ControlPlaneProvisionInProgress;
          (fun now => SourceSynced now revision);
          (fun now => SourceInProgress now revision);
          SupportedCrossplaneVersion;
          (fun now => UnsupportedCrossplaneVersion now msg);
          RestoreCompleted; RestorePending; PauseInProgress;
          PauseCompleted; PauseRestartInProgress; PauseRestarted;
          v1alpha1.Deleted; v1alpha1.Traversed].
Proof.
  assert (H : forall k : metav1.Time -> xpv1.Condition,
             xpv1.Equal (k now1) (k now2) = true ->
             xpv1.SetConditions (xpv1.SetConditions s [k now1]) [k now2]
             = xpv1.SetConditions s [k now1]).
  { intros k HE. unfold xpv1.SetConditions.
    cbn [fold_left xpv1.Conditions].
    rewrite (setCondition_again _ _ _ HE). reflexivity. }
  apply Forall_forall. intros k Hin. apply H. apply Equal_spec.
  simpl in Hin.
  repeat (destruct Hin as [<- | Hin]; [repeat split |]).
  destruct Hin.
Qed.

(** X14: the constructors that take an error panic on the nil error;
    on any other they give a condition with status [False] whose
    message is the text of the error.  [SourceError] gives the type,
    the status and the reason of [SourceInProgress]: the two differ in
    the message only. *)
Theorem error_constructors (now : metav1.Time) (e : kerrors.error)
        (revision : string) :
  ControlPlaneProvisioningError now None = None
  /\ SourceError now None = None
  /\ RestoreFailed now None = None
  /\ (exists c1 c2 c3,
         ControlPlaneProvisioningError now (Some e) = Some c1
         /\ SourceError now (Some e) = Some c2
         /\ RestoreFailed now (Some e) = Some c3
         /\ Forall (fun c => xpv1.Status c = corev1.ConditionFalse
                             /\ xpv1.Message c = kerrors.errorText e
                             /\ xpv1.LastTransitionTime c = now)
                   [c1; c2; c3]
         /\ xpv1.Type_ c2 = xpv1.Type_ (SourceInProgress now revision)
         /\ xpv1.Status c2 = xpv1.Status (SourceInProgress now revision)
         /\ xpv1.Reason c2 = xpv1.Reason (SourceInProgress now revision)
         /\ (xpv1.Equal c2 (SourceInProgress now revision) = true <->
             kerrors.errorText e = "Syncing revision " ++ revision)).
Proof.
  repeat (split; [reflexivity |]).
  do 3 eexists. repeat (split; [reflexivity |]).
  split; [repeat constructor |].
  repeat (split; [reflexivity |]).
  rewrite Equal_spec. cbn. split; [tauto | auto].
Qed.

End ConstructorFacts.

(** * The control plane: accessors *)
Section ControlPlaneAccessors.

Import v1beta1.

Variables TypeMeta ObjectMeta Reference PublishConnectionDetailsTo
          TypedLocalObjectReference : Type.

Local Abbreviation ControlPlane :=
  (v1beta1.ControlPlane TypeMeta ObjectMeta PublishConnectionDetailsTo
                        TypedLocalObjectReference).

(** X11: [SetWriteConnectionSecretToReference] then
    [GetWriteConnectionSecretToReference] gives back the name and the
    namespace that were set, and everything else in the control plane is
    as before.  The setter panics on a nil reference and on a nil
    receiver; the getter answers nil when no reference is set. *)
Theorem ControlPlane_WriteConnectionSecretToReference
        (mg : ControlPlane) (r : xpv1.SecretReference) :
  (exists mg',
      SetWriteConnectionSecretToReference (Some mg) (Some r)
      = Some (Some mg')
      /\ GetWriteConnectionSecretToReference (Some mg') = Some (Some r)
      /\ TypeMeta_ mg' = TypeMeta_ mg
      /\ ObjectMeta_ mg' = ObjectMeta_ mg
      /\ Status mg' = Status mg
      /\ PublishConnectionDetailsTo_ (Spec mg')
         = PublishConnectionDetailsTo_ (Spec mg)
      /\ ManagementPolicies (Spec mg') = ManagementPolicies (Spec mg)
      /\ DeletionPolicy (Spec mg') = DeletionPolicy (Spec mg)
      /\ Crossplane (Spec mg') = Crossplane (Spec mg)
      /\ Restore_ (Spec mg') = Restore_ (Spec mg)
      /\ ReconciliationPolicy_ (Spec mg') = ReconciliationPolicy_ (Spec mg))
  /\ SetWriteConnectionSecretToReference (Some mg) None = None
  /\ SetWriteConnectionSecretToReference (None : option ControlPlane)
                                         (Some r) = None
  /\ (WriteConnectionSecretToReference (Spec mg) = None ->
      GetWriteConnectionSecretToReference (Some mg) = Some None).
Proof.
  split.
  - eexists. split; [reflexivity |]. split.
    + destruct r. reflexivity.
    + repeat split.
  - repeat split. intros H. unfold GetWriteConnectionSecretToReference.
    cbn [Panic.bind Panic.deref]. rewrite H. reflexivity.
Qed.

(** X12: the setters with an empty body change nothing:
    [GetDeletionPolicy] after [SetDeletionPolicy] answers as before,
    whatever policy was passed, and [GetProviderConfigReference] is nil
    after [SetProviderConfigReference] and [SetProviderReference],
    whatever reference was passed, and on a nil receiver too. *)
Theorem ControlPlane_setters_without_effect
        (mg : option ControlPlane) (policy : xpv1.DeletionPolicy)
        (ref : option Reference) :
  (mg' <- SetDeletionPolicy mg policy ;; GetDeletionPolicy mg')
  = GetDeletionPolicy mg
  /\ SetDeletionPolicy mg policy = Some mg
  /\ (mg' <- SetProviderConfigReference mg ref ;;
      GetProviderConfigReference Reference mg') = Some None
  /\ SetProviderConfigReference mg ref = Some mg
  /\ (mg' <- SetProviderReference mg ref ;;
      GetProviderConfigReference Reference mg') = Some None
  /\ SetProviderReference mg ref = Some mg.
Proof. repeat split. Qed.

(** X13: [SetManagementPolicies] and [SetPublishConnectionDetailsTo]
    store what they are given, each leaves alone what the other getters
    answer, and each panics on a nil receiver. *)
Theorem ControlPlane_policies_and_publish
        (mg : ControlPlane) (policies : xpv1.ManagementPolicies)
        (p : option PublishConnectionDetailsTo) :
  (exists mg',
      SetManagementPolicies (Some mg) policies = Some (Some mg')
      /\ GetManagementPolicies (Some mg') = Some policies
      /\ GetPublishConnectionDetailsTo (Some mg')
         = GetPublishConnectionDetailsTo (Some mg)
      /\ GetDeletionPolicy (Some mg') = GetDeletionPolicy (Some mg)
      /\ GetWriteConnectionSecretToReference (Some mg')
         = GetWriteConnectionSecretToReference (Some mg)
      /\ forall ct, GetCondition (Some mg') ct = GetCondition (Some mg) ct)
  /\ (exists mg',
         SetPublishConnectionDetailsTo (Some mg) p = Some (Some mg')
         /\ GetPublishConnectionDetailsTo (Some mg') = Some p
         /\ GetManagementPolicies (Some mg')
            = GetManagementPolicies (Some mg)
         /\ GetDeletionPolicy (Some mg') = GetDeletionPolicy (Some mg)
         /\ GetWriteConnectionSecretToReference (Some mg')
            = GetWriteConnectionSecretToReference (Some mg)
         /\ forall ct, GetCondition (Some mg') ct = GetCondition (Some mg) ct)
  /\ SetManagementPolicies (None : option ControlPlane) policies = None
  /\ SetPublishConnectionDetailsTo (None : option ControlPlane) p = None.
Proof.
  split; [| split]; [| | split; reflexivity];
    eexists; (split; [reflexivity |]); repeat split.
Qed.

End ControlPlaneAccessors.

(** * The success record and the text of a record *)
Section RecordFacts.

Import v1alpha1.

Lemma length_append (a b : string) :
  String.length (a ++ b) = String.length a + String.length b.
Proof. induction a as [| c a IH]; simpl; [reflexivity | rewrite IH; auto]. Qed.

(** X15: the record of [PatchSuccess] points to a group, a namespace and
    a UID whatever the object holds: when the object has no [metadata]
    the name is empty and the namespace and the UID point to the empty
    string.  The group is the [apiVersion] of the object.  [NotFound]
    answers false on the record. *)
Theorem PatchSuccess_pointers (u : unstructured.Unstructured) :
  exists r,
    PatchSuccess (Some u) = Some r
    /\ corev1.APIGroup (TypedObjectReference r)
       = Some (unstructured.getNestedString (unstructured.Object u)
                                            ["apiVersion"])
    /\ corev1.Namespace (TypedObjectReference r) <> None
    /\ UID r <> None
    /\ (json.lookup "metadata" (unstructured.Object u) = None ->
        corev1.Name (TypedObjectReference r) = ""
        /\ corev1.Namespace (TypedObjectReference r) = Some ""
        /\ UID r = Some "")
    /\ NotFound (Some r) = Some false.
Proof.
  eexists. split; [reflexivity |].
  cbn [TypedObjectReference UID corev1.APIGroup corev1.Namespace
       corev1.Name].
  split; [reflexivity |]. split; [discriminate |]. split; [discriminate |].
  split; [| reflexivity].
  intros H. unfold unstructured.getNestedString.
  cbn [unstructured.NestedFieldNoCopy]. rewrite H. auto.
Qed.

(** X16: [String] answers [nil] for the nil receiver only: the text of
    a record is longer than that, whatever the embedded reference
    prints. *)
Theorem String_nil_iff
        (TypedObjectReference_String : corev1.TypedObjectReference -> string)
        (r : option ObjectReference) :
  String TypedObjectReference_String r = Some "nil" <-> r = None.
Proof.
  split; [| intros ->; reflexivity].
  destruct r as [r |]; [| reflexivity].
  intros H. exfalso.
  cbn [String Panic.bind Panic.deref Panic.ret] in H.
  injection H as H. apply (f_equal String.length) in H.
  cbn [strings.Join] in H.
  rewrite !length_append in H. simpl in H. lia.
Qed.

End RecordFacts.

(** * The records as JSON *)
Section RecordJSON.

Import v1alpha1 v1alpha1_json.

Lemma continuation_coerce n : forall s,
  utf8.continuation n s = true ->
  utf8.continuation n (utf8.coerce n s) = true.
Proof.
  induction n as [| n IH]; intros s; [reflexivity |].
  destruct s as [| c s']; simpl; [discriminate |].
  intros H. apply andb_true_iff in H as [Hc Hs].
  rewrite Hc, (IH s' Hs). reflexivity.
Qed.

Lemma accept_coerce lo hi n rest w :
  utf8.accept lo hi n rest = Some w ->
  utf8.accept lo hi n (utf8.coerce w rest) = Some w.
Proof.
  unfold utf8.accept. destruct rest as [| c s']; [discriminate |].
  destruct (utf8.inRange lo hi c && utf8.continuation n s') eqn:H;
    [| discriminate].
  intros E. injection E as <-.
  apply andb_true_iff in H as [Hc Hs].
  cbn [utf8.coerce]. rewrite Hc, (continuation_coerce n s' Hs). reflexivity.
Qed.

Lemma decodeRune_coerce b rest w :
  utf8.decodeRune b rest = Some w ->
  utf8.decodeRune b (utf8.coerce w rest) = Some w.
Proof.
  unfold utf8.decodeRune.
  repeat match goal with
         | |- context [if ?c then _ else _] => destruct c
         end;
    try discriminate; try apply accept_coerce.
  intros E. exact E.
Qed.

(** What [ToValidUTF8] returns is valid. *)
Lemma valid_coerce_result s : forall k,
  utf8.valid k (utf8.coerce k s) = true.
Proof.
  induction s as [| b rest IH]; intros k; [reflexivity |].
  destruct k as [| k']; cbn [utf8.coerce].
  - destruct (utf8.decodeRune b rest) as [w |] eqn:Hd.
    + cbn [utf8.valid]. rewrite (decodeRune_coerce b rest w Hd). apply IH.
    + change (utf8.valid 0 (utf8.coerce 0 rest) = true). apply IH.
  - cbn [utf8.valid]. apply IH.
Qed.

Lemma ToValidUTF8_valid s : utf8.ValidString (utf8.ToValidUTF8 s) = true.
Proof. apply valid_coerce_result. Qed.

Lemma ToValidUTF8_again s :
  utf8.ToValidUTF8 (utf8.ToValidUTF8 s) = utf8.ToValidUTF8 s.
Proof. apply (valid_coerce _ 0). apply ToValidUTF8_valid. Qed.

(** X18: one round trip settles a record: whatever its strings,
    unmarshalling the marshalled record gives a record whose strings are
    valid UTF-8, that marshals to the same document, and that comes back
    unchanged from a second round trip. *)
Theorem ObjectReference_round_trip_settles (r : ObjectReference) :
  exists r',
    unmarshalObjectReference (marshalObjectReference r) = Some r'
    /\ validObjectReference r' = true
    /\ marshalObjectReference r' = marshalObjectReference r
    /\ unmarshalObjectReference (marshalObjectReference r') = Some r'.
Proof.
  assert (H : exists r',
             unmarshalObjectReference (marshalObjectReference r) = Some r'
             /\ validObjectReference r' = true
             /\ marshalObjectReference r' = marshalObjectReference r).
  { destruct r as [[g k n ns] u st re m].
    exists {| TypedObjectReference :=
                {| corev1.APIGroup := option_map utf8.ToValidUTF8 g;
                   corev1.Kind := utf8.ToValidUTF8 k;
                   corev1.Name := utf8.ToValidUTF8 n;
                   corev1.Namespace := option_map utf8.ToValidUTF8 ns |};
              UID := option_map utf8.ToValidUTF8 u;
              Status := utf8.ToValidUTF8 st;
              Reason := option_map utf8.ToValidUTF8 re;
              Message := option_map utf8.ToValidUTF8 m |}.
    split; [destruct g, ns, u, re, m; reflexivity |].
    unfold validObjectReference, marshalObjectReference,
      marshalTypedObjectReference, encoding.marshalStringPtr,
      encoding.omitemptyStringPtr, encoding.marshalString, validPtr.
    cbn [TypedObjectReference UID Status Reason Message
         corev1.APIGroup corev1.Kind corev1.Name corev1.Namespace].
    destruct g, ns, u, re, m; cbn [option_map];
      rewrite ?ToValidUTF8_valid, ?ToValidUTF8_again; split; reflexivity. }
  destruct H as (r' & E & Hv & Hm). exists r'.
  repeat split; try assumption.
  apply unmarshal_marshal_ObjectReference. exact Hv.
Qed.

(** X17: in the JSON of a failure record the member [message] is always
    there, with the text of the error coerced to valid UTF-8; the member
    [reason] is left out exactly when the error does not unwrap to a
    [StatusError]; and [status] is [Skipped] or [Error]. *)
Theorem PatchFailure_JSON_members t uid e :
  exists r m,
    PatchFailure t uid (Some e) = Some r
    /\ marshalObjectReference r = json.Object m
    /\ json.lookup "message" m
       = Some (json.Str (utf8.ToValidUTF8 (kerrors.errorText e)))
    /\ (json.lookup "reason" m = None <-> kerrors.As (Some e) = None)
    /\ (json.lookup "status" m = Some (json.Str "Skipped")
        \/ json.lookup "status" m = Some (json.Str "Error")).
Proof.
  destruct t as [g k n ns].
  destruct (PatchFailure_cases
              {| corev1.APIGroup := g; corev1.Kind := k; corev1.Name := n;
                 corev1.Namespace := ns |} uid e)
    as [(sErr & HAs & _ & _ & E)
       | [(sErr & d & c & HAs & _ & _ & _ & _ & E)
         | [(sErr & HAs & _ & _ & E) | (HAs & E)]]];
    do 2 eexists; (split; [exact E |]); (split; [reflexivity |]);
    rewrite HAs; destruct ns, uid; cbn;
    repeat split; auto; try discriminate.
Qed.

(** X19: in the JSON of a success record the members [apiGroup],
    [namespace] and [uid] are always there, even when the object gives
    empty strings for them, [status] is [Success], and [reason] and
    [message] are left out. *)
Theorem PatchSuccess_JSON_members (u : unstructured.Unstructured) :
  exists r m,
    PatchSuccess (Some u) = Some r
    /\ marshalObjectReference r = json.Object m
    /\ (exists s, json.lookup "apiGroup" m = Some (json.Str s))
    /\ (exists s, json.lookup "namespace" m = Some (json.Str s))
    /\ json.lookup "uid" m
       = Some (json.Str
                 (utf8.ToValidUTF8
                    (unstructured.getNestedString
                       (unstructured.Object u) ["metadata"; "uid"])))
    /\ json.lookup "status" m = Some (json.Str "Success")
    /\ json.lookup "reason" m = None
    /\ json.lookup "message" m = None.
Proof.
  do 2 eexists. split; [reflexivity |]. split; [reflexivity |].
  cbn. repeat split; eexists; reflexivity.
Qed.

End RecordJSON.
